(** * FSx ONTAP Storage Virtual Machine data source

    A shallow embedding of
    [internal/service/fsx/ontap_storage_virtual_machine_data_source.go]:
    the read handler [dataSourceONTAPStorageVirtualMachineRead] and the
    flattener [flattenLifecycleTransitionReason], with the properties the
    specification states about them. *)

From Stdlib Require Import ZArith Strings.String Strings.Ascii Lists.List.
From stdpp Require Import base option list strings gmap.

Set Warnings "-register-all".

Local Open Scope string_scope.

(** ** Go values

    A Go slice is either [nil] or a (possibly empty) sequence; the two are
    distinct values, so a slice is an optional list.  A Go [*string] is an
    optional string. *)

Definition slice (A : Type) : Type := option (list A).

Definition nil_slice {A : Type} : slice A := None.

Definition len {A : Type} (s : slice A) : nat :=
  match s with
  | None => 0
  | Some l => length l
  end.

(** What the handler hands to [d.Set] as an [interface{}]. *)
Inductive Value : Type :=
| VString (s : string)                      (* string *)
| VStringPtr (p : option string)            (* *string, possibly nil *)
| VSlice (s : option (list Value))          (* []interface{} *)
| VMap (m : gmap string Value)              (* map[string]interface{} *)
| VStringMap (m : gmap string string).      (* map[string]string *)

(** [aws.StringValue]: the pointed-to string, the empty string for [nil]. *)
Definition StringValue (p : option string) : string :=
  match p with
  | Some s => s
  | None => EmptyString
  end.

(** [fsx.LifecycleTransitionReason] of the AWS SDK. *)
Record LifecycleTransitionReason : Type := {
  Message : option string
}.

(** ** flattenLifecycleTransitionReason *)

Definition flattenLifecycleTransitionReason
    (rs : option LifecycleTransitionReason) : slice Value :=
  match rs with
  | None => Some []
  | Some rs =>
      let m : gmap string Value := ∅ in
      let m :=
        match Message rs with
        | Some _ => <["message" := VString (StringValue (Message rs))]> m
        | None => m
        end in
      Some [VMap m]
  end.

(** *** The same flattener over pointers

    The Go function receives pointers.  Here the remote snapshot lives in a
    memory of cells, [rs] and [rs.Message] are addresses, and the function
    returns the memory it leaves behind, so that reading without writing is
    a property and not a convention. *)

Module Mem.

Definition addr : Type := positive.

Record LifecycleTransitionReasonCell : Type := {
  MessagePtr : option addr
}.

Record memory : Type := {
  strings : gmap addr string;
  reasons : gmap addr LifecycleTransitionReasonCell
}.

(** The value a (possibly nil) [*string] denotes; [None] when the
    address is not allocated, which Go's memory safety excludes. *)
Definition loadStringPtr (h : memory) (p : option addr)
    : option (option string) :=
  match p with
  | None => Some None
  | Some q => match strings h !! q with
              | Some s => Some (Some s)
              | None => None
              end
  end.

(** The snapshot a (possibly nil) [*fsx.LifecycleTransitionReason]
    denotes. *)
Definition snapshot (h : memory) (rs : option addr)
    : option (option LifecycleTransitionReason) :=
  match rs with
  | None => Some None
  | Some a =>
      match reasons h !! a with
      | Some cell =>
          match loadStringPtr h (MessagePtr cell) with
          | Some msg => Some (Some {| Message := msg |})
          | None => None
          end
      | None => None
      end
  end.

Definition flattenLifecycleTransitionReason_ptr
    (h : memory) (rs : option addr) : option (slice Value * memory) :=
  match rs with
  | None => Some (Some [], h)
  | Some a =>
      match reasons h !! a with
      | None => None
      | Some cell =>
          let m : gmap string Value := ∅ in
          match MessagePtr cell with
          | Some q =>
              match strings h !! q with
              | Some s => Some (Some [VMap (<["message" := VString s]> m)], h)
              | None => None
              end
          | None => Some (Some [VMap m], h)
          end
      end
  end.

(** Two applications in a row to the same pointer, the second in the
    memory the first one left. *)
Definition flatten_twice (h : memory) (rs : option addr)
    : option (slice Value * slice Value * memory) :=
  match flattenLifecycleTransitionReason_ptr h rs with
  | Some (r1, h1) =>
      match flattenLifecycleTransitionReason_ptr h1 rs with
      | Some (r2, h2) => Some (r1, r2, h2)
      | None => None
      end
  | None => None
  end.

Definition sample_memory : memory :=
  {| strings := {[ 7%positive := "SVM is being created" ]};
     reasons := {[ 3%positive := {| MessagePtr := Some 7%positive |} ]} |}.

End Mem.

(** ** AWS SDK types *)

Definition Time : Type := Z.

Record SvmEndpoint : Type := {
  DNSName : option string;
  IpAddresses : slice (option string)
}.

Record SvmEndpoints : Type := {
  Iscsi : option SvmEndpoint;
  Management : option SvmEndpoint;
  Nfs : option SvmEndpoint;
  Smb : option SvmEndpoint
}.

Record SelfManagedActiveDirectoryAttributes : Type := {
  DnsIps : slice (option string);
  DomainName : option string;
  FileSystemAdministratorsGroup : option string;
  OrganizationalUnitDistinguishedName : option string;
  UserName : option string
}.

Record SvmActiveDirectoryConfiguration : Type := {
  NetBiosName : option string;
  SelfManagedActiveDirectoryConfiguration
    : option SelfManagedActiveDirectoryAttributes
}.

Record Tag : Type := {
  Key : option string;
  Value_ : option string
}.

Record StorageVirtualMachine : Type := {
  ActiveDirectoryConfiguration : option SvmActiveDirectoryConfiguration;
  CreationTime : option Time;
  Endpoints : option SvmEndpoints;
  FileSystemId : option string;
  Lifecycle : option string;
  LifecycleTransitionReason_ : option LifecycleTransitionReason;
  Name : option string;
  ResourceARN : option string;
  RootVolumeSecurityStyle : option string;
  StorageVirtualMachineId : option string;
  Subtype : option string;
  Tags : slice Tag;
  UUID : option string
}.

Record StorageVirtualMachineFilter : Type := {
  FilterName : option string;
  FilterValues : slice (option string)
}.

Record DescribeStorageVirtualMachinesInput : Type := {
  Filters : slice StorageVirtualMachineFilter;
  MaxResults : option Z;
  NextToken : option string;
  StorageVirtualMachineIds : slice (option string)
}.

(** [aws.StringSlice]. *)
Definition StringSlice (l : list string) : slice (option string) :=
  Some (map Some l).

(** [time.RFC3339]. *)
Definition RFC3339 : string := "2006-01-02T15:04:05Z07:00".

(** ** Errors and diagnostics

    An [error] is known to this file only through the text [%s] prints. *)

Definition error : Type := string.

Inductive Result (A : Type) : Type :=
| Ok (a : A)
| Err (err : error).
Arguments Ok {A} a.
Arguments Err {A} err.

Inductive Severity : Type := Error | Warning.

Record Diagnostic : Type := {
  severity : Severity;
  Summary : string;
  Detail : string
}.

Definition Diagnostics : Type := list Diagnostic.

(** [fmt.Sprintf] for formats whose only verb is [%s]. *)
Fixpoint Sprintf (format : string) (a : list string) : string :=
  match format with
  | EmptyString => EmptyString
  | String c rest =>
      match rest with
      | String c' rest' =>
          if (Ascii.eqb c "%" && Ascii.eqb c' "s")%bool then
            match a with
            | x :: a' => x +:+ Sprintf rest' a'
            | [] => "%!s(MISSING)" +:+ Sprintf rest' []
            end
          else String c (Sprintf rest a)
      | EmptyString => String c EmptyString
      end
  end.

(** Modelled from the spec: [sdkdiag.AppendErrorf] is not in this file.  A
    failure is "reported once with a fixed message prefix and the underlying
    error text", as a structured diagnostic: one error diagnostic, whose
    summary is the formatted message, is appended. *)
Definition AppendErrorf (diags : Diagnostics) (format : string)
    (a : list string) : Diagnostics :=
  app diags [{| severity := Error;
                Summary := Sprintf format a;
                Detail := EmptyString |}].

(** ** Attribute names

    Modelled from the spec: the [names.Attr*] constants are declared in the
    [names] package, not in this file; their values are the attribute names
    of the declared attribute surface. *)

Module names.
Definition AttrARN : string := "arn".
Definition AttrCreationTime : string := "creation_time".
Definition AttrEndpoints : string := "endpoints".
Definition AttrFileSystemID : string := "file_system_id".
Definition AttrFilter : string := "filter".
Definition AttrID : string := "id".
Definition AttrName : string := "name".
Definition AttrTags : string := "tags".
End names.

(** ** Tags

    Modelled from the spec: the tagging helpers of [internal/tags]
    ([KeyValueTags], [IgnoreAWS], [IgnoreConfig], [RemoveDefaultConfig],
    [Map]) are not in this file.  Tags are a map from key to value; tags
    "that match the ignore-configuration or AWS-reserved prefixes are
    excluded", and the result is "then merged with default-tag
    configuration before being written to state". *)

Abbreviation KeyValueTagsMap := (gmap string string).

Record IgnoreConfig : Type := {
  Keys : list string;
  KeyPrefixes : list string
}.

Record DefaultConfig : Type := {
  DefaultTags : gmap string string
}.

Definition AwsTagKeyPrefix : string := "aws:".

Definition KeyValueTags (tags : slice Tag) : KeyValueTagsMap :=
  match tags with
  | None => ∅
  | Some l =>
      fold_left (fun m t => <[StringValue (Key t) := StringValue (Value_ t)]> m)
                l ∅
  end.

Definition IgnoreAWS (tags : KeyValueTagsMap) : KeyValueTagsMap :=
  filter (fun kv => String.prefix AwsTagKeyPrefix kv.1 = false) tags.

Definition IgnorePrefixes (prefixes : list string) (tags : KeyValueTagsMap)
    : KeyValueTagsMap :=
  filter (fun kv => existsb (fun p => String.prefix p kv.1) prefixes = false)
         tags.

Definition Ignore (keys : list string) (tags : KeyValueTagsMap)
    : KeyValueTagsMap :=
  filter (fun kv => existsb (String.eqb kv.1) keys = false) tags.

Definition IgnoreConfig_ (config : option IgnoreConfig)
    (tags : KeyValueTagsMap) : KeyValueTagsMap :=
  match config with
  | None => tags
  | Some c => Ignore (Keys c) (IgnorePrefixes (KeyPrefixes c) tags)
  end.

(** Modelled from the spec: the step the handler calls
    [RemoveDefaultConfig] is not in this file; the spec describes it as
    merging the filtered tags with the default-tag configuration.  The
    result holds the tags of both; the spec does not say which value a key
    that both hold keeps (here the remote tag's), and no property below
    depends on it. *)
Definition RemoveDefaultConfig (dc : option DefaultConfig)
    (tags : KeyValueTagsMap) : KeyValueTagsMap :=
  match dc with
  | None => tags
  | Some c => tags ∪ DefaultTags c
  end.

Definition Map (tags : KeyValueTagsMap) : gmap string string := tags.

(** ** Provider metadata ([conns.AWSClient]) *)

Record AWSClient : Type := {
  DefaultTagsConfig : option DefaultConfig;
  IgnoreTagsConfig : option IgnoreConfig
}.

(** ** schema.ResourceData

    The configuration the handler reads ([id], a string, empty when not
    configured; [filter], a set of name/values blocks), the state it writes
    (the identifier and the attributes), and the calls that wrote to it, in
    order. *)

Record FilterBlock : Type := {
  block_name : string;
  block_values : list string
}.

Inductive Event : Type :=
| CallSetId (id : string)
| CallSet (key : string) (v : Value) (err : option error).

Record ResourceData : Type := {
  config_id : string;
  config_filter : list FilterBlock;
  Id : string;
  attrs : gmap string Value;
  calls : list Event
}.

(** Modelled from the spec: [newStorageVirtualMachineFilterList] is not in
    this file.  The filter criteria are "a caller-supplied set of name/value
    pairs"; each becomes one filter of the request. *)
Definition newStorageVirtualMachineFilterList (s : list FilterBlock)
    : slice StorageVirtualMachineFilter :=
  Some (map (fun b => {| FilterName := Some (block_name b);
                         FilterValues := StringSlice (block_values b) |}) s).

(** ** The handler's effects

    A statement of the handler continues with a value, returns from the
    handler with diagnostics, or panics; it reads and updates the
    [ResourceData]. *)

Inductive Step (A : Type) : Type :=
| Continue (a : A)
| Return (diags : Diagnostics)
| Panic.
Arguments Continue {A} a.
Arguments Return {A} diags.
Arguments Panic {A}.

Definition M (A : Type) : Type := ResourceData -> Step A * ResourceData.

Definition ret {A : Type} (a : A) : M A := fun d => (Continue a, d).

Definition bind {A B : Type} (m : M A) (f : A -> M B) : M B :=
  fun d =>
    match m d with
    | (Continue a, d') => f a d'
    | (Return diags, d') => (Return diags, d')
    | (Panic, d') => (Panic, d')
    end.

Definition return_ {A : Type} (diags : Diagnostics) : M A :=
  fun d => (Return diags, d).

Definition panic {A : Type} : M A := fun d => (Panic, d).

Definition get : M ResourceData := fun d => (Continue d, d).

Notation "x <-- m ;; k" := (bind m (fun x => k))
  (at level 100, m at next level, right associativity).
Notation "m ;;; k" := (bind m (fun _ => k))
  (at level 100, right associativity).

(** Dereference of a pointer whose method is called: nil panics. *)
Definition deref {A : Type} (p : option A) : M A :=
  match p with
  | Some a => ret a
  | None => panic
  end.

(** [d.GetOk(names.AttrID)] followed by [v.(string)]: the configured
    string and whether it is set to a non-zero value. *)
Definition d_GetOk_id (d : ResourceData) : string * bool :=
  (config_id d, negb (String.eqb (config_id d) EmptyString)).

(** [d.Get(names.AttrFilter)], asserted to be a schema set. *)
Definition d_Get_filter (d : ResourceData) : list FilterBlock :=
  config_filter d.

(** [d.SetId(id)]: the state identifier is set and the call recorded.
    The handler reads the [id] attribute only before this call (line 204),
    so what [d.GetOk] would read afterwards is not part of the model. *)
Definition d_SetId (id : string) : M unit :=
  fun d =>
    (Continue tt,
     {| config_id := config_id d; config_filter := config_filter d;
        Id := id; attrs := attrs d;
        calls := app (calls d) [CallSetId id] |}).

(** Lines 202-214 of the handler: the describe request built from the
    configuration. *)
Definition describeInput (d : ResourceData)
    : DescribeStorageVirtualMachinesInput :=
  let input := {| Filters := None; MaxResults := None; NextToken := None;
                  StorageVirtualMachineIds := None |} in
  let input :=
    let (v, ok) := d_GetOk_id d in
    if ok
    then {| Filters := Filters input; MaxResults := MaxResults input;
            NextToken := NextToken input;
            StorageVirtualMachineIds := StringSlice [v] |}
    else input in
  let input :=
    {| Filters := newStorageVirtualMachineFilterList (d_Get_filter d);
       MaxResults := MaxResults input; NextToken := NextToken input;
       StorageVirtualMachineIds := StorageVirtualMachineIds input |} in
  let input :=
    if Nat.eqb (len (Filters input)) 0
    then {| Filters := None;
            MaxResults := MaxResults input; NextToken := NextToken input;
            StorageVirtualMachineIds := StorageVirtualMachineIds input |}
    else input in
  input.

(** [if err != nil { return diags }]. *)
Definition if_err (err : option error) (diags : error -> Diagnostics)
    : M unit :=
  match err with
  | Some e => return_ (diags e)
  | None => ret tt
  end.

(** The calls made since the [ResourceData] was [d]. *)
Definition calls_since (d d' : ResourceData) : list Event :=
  drop (length (calls d)) (calls d').

(** The attributes whose [d.Set] error the handler checks. *)
Definition checked_attributes : list string :=
  ["active_directory_configuration"; names.AttrEndpoints;
   "lifecycle_transition_reason"; names.AttrTags].

(** ** The read handler *)

(** The collaborators the handler calls and this file does not define: the
    shared "find exactly one" helper together with the remote service behind
    it, whether the provider SDK accepts a value for an attribute,
    [time.Time.Format], and the two flatteners defined with the resource. *)
Class Collaborators : Type := {
  findStorageVirtualMachine :
    DescribeStorageVirtualMachinesInput -> Result StorageVirtualMachine;
  setError : string -> Value -> option error;
  Format : Time -> string -> string;
  flattenSvmActiveDirectoryConfiguration :
    ResourceData -> option SvmActiveDirectoryConfiguration -> slice Value;
  flattenSvmEndpoints : option SvmEndpoints -> slice Value
}.

Section Read.

Context {env : Collaborators}.

(** [d.Set(key, v)]: the call is recorded; the attribute is written
    unless the SDK rejects the value. *)
Definition d_Set (key : string) (v : Value) : M (option error) :=
  fun d =>
    match setError key v with
    | Some err =>
        (Continue (Some err),
         {| config_id := config_id d; config_filter := config_filter d;
            Id := Id d; attrs := attrs d;
            calls := app (calls d) [CallSet key v (Some err)] |})
    | None =>
        (Continue None,
         {| config_id := config_id d; config_filter := config_filter d;
            Id := Id d; attrs := <[key := v]> (attrs d);
            calls := app (calls d) [CallSet key v None] |})
    end.

Definition dataSourceONTAPStorageVirtualMachineRead (meta : AWSClient)
    : M Empty_set :=
  let diags : Diagnostics := [] in
  let defaultTagsConfig := DefaultTagsConfig meta in
  let ignoreTagsConfig := IgnoreTagsConfig meta in
  d <-- get ;;
  let input := describeInput d in
  match findStorageVirtualMachine input with
  | Err err =>
      return_ (AppendErrorf diags
                 "reading FSx ONTAP Storage Virtual Machine: %s" [err])
  | Ok svm =>
      d_SetId (StringValue (StorageVirtualMachineId svm)) ;;;
      d <-- get ;;
      err <-- d_Set "active_directory_configuration"
                (VSlice (flattenSvmActiveDirectoryConfiguration d
                           (ActiveDirectoryConfiguration svm))) ;;
      if_err err (fun err =>
        AppendErrorf diags "setting active_directory_configuration: %s"
                     [err]) ;;;
      d_Set names.AttrARN (VStringPtr (ResourceARN svm)) ;;;
      t <-- deref (CreationTime svm) ;;
      d_Set names.AttrCreationTime (VString (Format t RFC3339)) ;;;
      err <-- d_Set names.AttrEndpoints
                (VSlice (flattenSvmEndpoints (Endpoints svm))) ;;
      if_err err (fun err =>
        AppendErrorf diags "setting endpoints: %s" [err]) ;;;
      d_Set names.AttrFileSystemID (VStringPtr (FileSystemId svm)) ;;;
      d_Set "lifecycle_status" (VStringPtr (Lifecycle svm)) ;;;
      err <-- d_Set "lifecycle_transition_reason"
                (VSlice (flattenLifecycleTransitionReason
                           (LifecycleTransitionReason_ svm))) ;;
      if_err err (fun err =>
        AppendErrorf diags "setting lifecycle_transition_reason: %s"
                     [err]) ;;;
      d_Set names.AttrName (VStringPtr (Name svm)) ;;;
      d_Set "subtype" (VStringPtr (Subtype svm)) ;;;
      d_Set "uuid" (VStringPtr (UUID svm)) ;;;
      let tags :=
        IgnoreConfig_ ignoreTagsConfig
          (IgnoreAWS (KeyValueTags (Tags svm))) in
      err <-- d_Set names.AttrTags
                (VStringMap (Map (RemoveDefaultConfig defaultTagsConfig
                                    tags))) ;;
      if_err err (fun err =>
        AppendErrorf diags "setting tags: %s" [err]) ;;;
      return_ diags
  end.

End Read.

(** ** Vocabulary of the handler's properties *)

(** A call that failed on an attribute whose error the handler checks. *)
Definition failed_checked (ev : Event) : Prop :=
  match ev with
  | CallSet k _ (Some _) => k ∈ checked_attributes
  | _ => False
  end.

Definition clean (evs : list Event) : Prop :=
  Forall (fun ev => ¬ failed_checked ev) evs.

(** The diagnostics reported for a failed write of attribute [k]. *)
Definition setting_diag (k : string) (e : error) : Diagnostics :=
  [{| severity := Error;
      Summary := "setting " +:+ k +:+ ": " +:+ e;
      Detail := EmptyString |}].

(** A statement sequence fails fast: the calls it adds contain no failed
    checked write, except as the very last call, and then it returns that
    attribute's diagnostic. *)
Definition fail_fast {A : Type} (m : M A) : Prop :=
  ∀ d, ∃ evs,
    calls (m d).2 = app (calls d) evs ∧
    match (m d).1 with
    | Continue _ | Panic => clean evs
    | Return ds =>
        clean evs ∨
        ∃ evs0 k v e,
          evs = app evs0 [CallSet k v (Some e)] ∧ clean evs0 ∧
          k ∈ checked_attributes ∧ ds = setting_diag k e
    end.

(** Whether the ignore configuration excludes a tag key. *)
Definition ignored_by (config : option IgnoreConfig) (k : string) : bool :=
  match config with
  | None => false
  | Some c =>
      existsb (fun p => String.prefix p k) (KeyPrefixes c)
      || existsb (String.eqb k) (Keys c)
  end.

(** Whether the default-tag configuration holds the tag [k = v]. *)
Definition in_default_config (dc : option DefaultConfig) (k v : string)
    : Prop :=
  match dc with
  | None => False
  | Some c => DefaultTags c !! k = Some v
  end.

(** ** Sample data *)

Definition sample_svm : StorageVirtualMachine :=
  {| ActiveDirectoryConfiguration := None;
     CreationTime := Some 1700000000%Z;
     Endpoints := None;
     FileSystemId := Some "fs-0123456789abcdef0";
     Lifecycle := Some "CREATED";
     LifecycleTransitionReason_ := Some {| Message := Some "ok" |};
     Name := Some "svm1";
     ResourceARN :=
       Some "arn:aws:fsx:us-east-1:123456789012:storage-virtual-machine/svm-1";
     RootVolumeSecurityStyle := None;
     StorageVirtualMachineId := Some "svm-0123456789abcdef0";
     Subtype := Some "DEFAULT";
     Tags := Some [ {| Key := Some "Name"; Value_ := Some "svm1" |};
                    {| Key := Some "Owner"; Value_ := Some "platform" |};
                    {| Key := Some "aws:createdBy"; Value_ := Some "root" |};
                    {| Key := Some "tmp-build"; Value_ := Some "42" |} ];
     UUID := Some "6c0b4b75-0000-0000-0000-000000000000" |}.

Definition sample_meta : AWSClient :=
  {| DefaultTagsConfig := Some {| DefaultTags := {[ "Owner" := "platform" ]} |};
     IgnoreTagsConfig :=
       Some {| Keys := ["Cost"]; KeyPrefixes := ["tmp-"] |} |}.

Definition sample_d : ResourceData :=
  {| config_id := "svm-0123456789abcdef0";
     config_filter := [ {| block_name := "file-system-id";
                           block_values := ["fs-0123456789abcdef0"] |} ];
     Id := EmptyString;
     attrs := ∅;
     calls := [] |}.

Definition sample_d_no_filter : ResourceData :=
  {| config_id := EmptyString;
     config_filter := [];
     Id := EmptyString;
     attrs := ∅;
     calls := [] |}.

Definition find_sample (_ : DescribeStorageVirtualMachinesInput)
    : Result StorageVirtualMachine := Ok sample_svm.

Definition find_nothing (_ : DescribeStorageVirtualMachinesInput)
    : Result StorageVirtualMachine := Err "empty result".

Definition set_accepts (_ : string) (_ : Value) : option error := None.

Definition set_rejects (k : string) (key : string) (_ : Value)
    : option error :=
  if String.eqb key k then Some "Invalid address to set" else None.

Definition sample_Format (_ : Time) (_ : string) : string :=
  "2023-11-14T22:13:20Z".

Definition sample_flattenSvmActiveDirectoryConfiguration
    (_ : ResourceData) (_ : option SvmActiveDirectoryConfiguration)
    : slice Value := Some [].

Definition sample_flattenSvmEndpoints (_ : option SvmEndpoints)
    : slice Value := Some [].

Definition sample_collaborators
    (find : DescribeStorageVirtualMachinesInput ->
            Result StorageVirtualMachine)
    (set_error : string -> Value -> option error) : Collaborators :=
  {| findStorageVirtualMachine := find;
     setError := set_error;
     Format := sample_Format;
     flattenSvmActiveDirectoryConfiguration :=
       sample_flattenSvmActiveDirectoryConfiguration;
     flattenSvmEndpoints := sample_flattenSvmEndpoints |}.

(** The sample read: the lookup finds [sample_svm] and every write is
    accepted. *)
Definition sample_read : Step Empty_set * ResourceData :=
  @dataSourceONTAPStorageVirtualMachineRead
    (sample_collaborators find_sample set_accepts) sample_meta sample_d.

(** ** The data source's schema

    [schema.Schema] of the provider SDK, with the fields the data source
    sets; [Elem] is absent, the schema of the elements, or the resource
    describing a nested block. *)

Inductive ValueType : Type :=
| TypeInvalid
| TypeBool
| TypeInt
| TypeFloat
| TypeString
| TypeList
| TypeMap
| TypeSet.

Inductive SchemaElem (S : Type) : Type :=
| NoElem
| ElemSchema (s : S)
| ElemResource (r : gmap string S).
Arguments NoElem {S}.
Arguments ElemSchema {S} s.
Arguments ElemResource {S} r.

Inductive Schema : Type := mkSchema {
  Type_ : ValueType;
  Optional : bool;
  Computed : bool;
  Elem : SchemaElem Schema
}.

(** [schema.Resource]. *)
Record Resource : Type := {
  ReadWithoutTimeout : AWSClient -> M Empty_set;
  Schema_ : gmap string Schema
}.

(** The nested attribute names of the [names] package that the schema
    uses, with the values the provider gives them. *)
Module nested_names.
Definition AttrDNSName : string := "dns_name".
Definition AttrDomainName : string := "domain_name".
Definition AttrUsername : string := "username".
End nested_names.

(** The nested block of one endpoint, the same for the four protocols. *)
Definition endpointSchema : Schema :=
  {| Type_ := TypeList; Optional := false; Computed := true;
     Elem := ElemResource (list_to_map [
       (nested_names.AttrDNSName,
        {| Type_ := TypeString; Optional := false; Computed := true;
           Elem := NoElem |});
       ("ip_addresses",
        {| Type_ := TypeSet; Optional := false; Computed := true;
           Elem := ElemSchema {| Type_ := TypeString; Optional := false;
                                 Computed := false; Elem := NoElem |} |})
     ]) |}.

Section DataSource.

Context {env : Collaborators}.

(** The two schemas built by helpers this file does not define. *)
Variable storageVirtualMachineFiltersSchema : Schema.
Variable TagsSchemaComputed : Schema.

Definition dataSourceONTAPStorageVirtualMachine : Resource :=
  {| ReadWithoutTimeout := dataSourceONTAPStorageVirtualMachineRead;
     Schema_ := list_to_map [
       ("active_directory_configuration",
        {| Type_ := TypeList; Optional := false; Computed := true;
           Elem := ElemResource (list_to_map [
             ("netbios_name",
              {| Type_ := TypeString; Optional := false; Computed := true;
                 Elem := NoElem |});
             ("self_managed_active_directory_configuration",
              {| Type_ := TypeList; Optional := false; Computed := true;
                 Elem := ElemResource (list_to_map [
                   ("dns_ips",
                    {| Type_ := TypeSet; Optional := false; Computed := true;
                       Elem := ElemSchema
                         {| Type_ := TypeString; Optional := false;
                            Computed := false; Elem := NoElem |} |});
                   (nested_names.AttrDomainName,
                    {| Type_ := TypeString; Optional := false;
                       Computed := true; Elem := NoElem |});
                   ("file_system_administrators_group",
                    {| Type_ := TypeString; Optional := false;
                       Computed := true; Elem := NoElem |});
                   ("organizational_unit_distinguished_name",
                    {| Type_ := TypeString; Optional := false;
                       Computed := true; Elem := NoElem |});
                   (nested_names.AttrUsername,
                    {| Type_ := TypeString; Optional := false;
                       Computed := true; Elem := NoElem |})
                 ]) |})
           ]) |});
       (names.AttrARN,
        {| Type_ := TypeString; Optional := false; Computed := true;
           Elem := NoElem |});
       (names.AttrCreationTime,
        {| Type_ := TypeString; Optional := false; Computed := true;
           Elem := NoElem |});
       (names.AttrEndpoints,
        {| Type_ := TypeList; Optional := false; Computed := true;
           Elem := ElemResource (list_to_map [
             ("iscsi", endpointSchema);
             ("management", endpointSchema);
             ("nfs", endpointSchema);
             ("smb", endpointSchema)
           ]) |});
       (names.AttrFileSystemID,
        {| Type_ := TypeString; Optional := false; Computed := true;
           Elem := NoElem |});
       (names.AttrFilter, storageVirtualMachineFiltersSchema);
       (names.AttrID,
        {| Type_ := TypeString; Optional := true; Computed := true;
           Elem := NoElem |});
       ("lifecycle_status",
        {| Type_ := TypeString; Optional := false; Computed := true;
           Elem := NoElem |});
       ("lifecycle_transition_reason",
        {| Type_ := TypeSet; Optional := false; Computed := true;
           Elem := ElemResource (list_to_map [
             ("message",
              {| Type_ := TypeString; Optional := false; Computed := true;
                 Elem := NoElem |})
           ]) |});
       (names.AttrName,
        {| Type_ := TypeString; Optional := false; Computed := true;
           Elem := NoElem |});
       ("subtype",
        {| Type_ := TypeString; Optional := false; Computed := true;
           Elem := NoElem |});
       (names.AttrTags, TagsSchemaComputed);
       ("uuid",
        {| Type_ := TypeString; Optional := false; Computed := true;
           Elem := NoElem |})
     ] |}.

End DataSource.

(** The names a nested block declares; none when the attribute has no
    nested block. *)
Definition nested_names_of (s : Schema) : gmap string Schema :=
  match Elem s with
  | ElemResource r => r
  | _ => ∅
  end.

(** Whether a value has the Go type the SDK accepts for a schema type:
    a string or string pointer for a string, a slice for a list or a set,
    a map for a map. *)
Definition value_fits (t : ValueType) (v : Value) : bool :=
  match t, v with
  | TypeString, (VString _ | VStringPtr _) => true
  | (TypeList | TypeSet), VSlice _ => true
  | TypeMap, (VMap _ | VStringMap _) => true
  | _, _ => false
  end.

(** ** The handler's writes, in order *)

(** The attributes the handler passes to [d.Set], in program order. *)
Definition written_attributes : list string :=
  ["active_directory_configuration"; names.AttrARN;
   names.AttrCreationTime; names.AttrEndpoints; names.AttrFileSystemID;
   "lifecycle_status"; "lifecycle_transition_reason"; names.AttrName;
   "subtype"; "uuid"; names.AttrTags].

(** The attribute a call writes; none for [SetId]. *)
Definition event_key (ev : Event) : option string :=
  match ev with
  | CallSetId _ => None
  | CallSet k _ _ => Some k
  end.

(** One [d.Set] statement: the attribute, the value, and the diagnostics
    of its [if err != nil] branch when the handler has one. *)
Record Write : Type := {
  w_key : string;
  w_value : Value;
  w_diag : option (error -> Diagnostics)
}.

Section Writes.

Context {env : Collaborators}.

(** A run of [d.Set] statements followed by the rest of the handler. *)
Fixpoint do_writes {B : Type} (ws : list Write) (rest : M B) : M B :=
  match ws with
  | [] => rest
  | w :: ws' =>
      match w_diag w with
      | Some h =>
          err <-- d_Set (w_key w) (w_value w) ;;
          if_err err h ;;;
          do_writes ws' rest
      | None => d_Set (w_key w) (w_value w) ;;; do_writes ws' rest
      end
  end.

(** The resource data after the [d.Set] calls of [ws], all of them made. *)
Definition apply_writes (ws : list Write) (d : ResourceData) : ResourceData :=
  fold_left (fun d w => (d_Set (w_key w) (w_value w) d).2) ws d.

(** The call a write leaves in the trace. *)
Definition write_event (w : Write) : Event :=
  CallSet (w_key w) (w_value w) (setError (w_key w) (w_value w)).

(** A write whose error is checked and which the SDK rejects. *)
Definition write_fails (w : Write) : Prop :=
  is_Some (w_diag w) ∧ is_Some (setError (w_key w) (w_value w)).

(** The statements of the handler before [svm.CreationTime] is
    dereferenced, [d1] being the resource data passed to the flattener. *)
Definition writes_before (svm : StorageVirtualMachine) (d1 : ResourceData)
    : list Write :=
  [ {| w_key := "active_directory_configuration";
       w_value := VSlice (flattenSvmActiveDirectoryConfiguration d1
                            (ActiveDirectoryConfiguration svm));
       w_diag := Some (fun err =>
         AppendErrorf [] "setting active_directory_configuration: %s"
                      [err]) |};
    {| w_key := names.AttrARN;
       w_value := VStringPtr (ResourceARN svm);
       w_diag := None |} ].

(** The statements after it. *)
Definition writes_after (meta : AWSClient) (svm : StorageVirtualMachine)
    (t : Time) : list Write :=
  [ {| w_key := names.AttrCreationTime;
       w_value := VString (Format t RFC3339);
       w_diag := None |};
    {| w_key := names.AttrEndpoints;
       w_value := VSlice (flattenSvmEndpoints (Endpoints svm));
       w_diag := Some (fun err =>
         AppendErrorf [] "setting endpoints: %s" [err]) |};
    {| w_key := names.AttrFileSystemID;
       w_value := VStringPtr (FileSystemId svm);
       w_diag := None |};
    {| w_key := "lifecycle_status";
       w_value := VStringPtr (Lifecycle svm);
       w_diag := None |};
    {| w_key := "lifecycle_transition_reason";
       w_value := VSlice (flattenLifecycleTransitionReason
                            (LifecycleTransitionReason_ svm));
       w_diag := Some (fun err =>
         AppendErrorf [] "setting lifecycle_transition_reason: %s" [err]) |};
    {| w_key := names.AttrName;
       w_value := VStringPtr (Name svm);
       w_diag := None |};
    {| w_key := "subtype";
       w_value := VStringPtr (Subtype svm);
       w_diag := None |};
    {| w_key := "uuid";
       w_value := VStringPtr (UUID svm);
       w_diag := None |};
    {| w_key := names.AttrTags;
       w_value := VStringMap (Map (RemoveDefaultConfig
                                     (DefaultTagsConfig meta)
                                     (IgnoreConfig_ (IgnoreTagsConfig meta)
                                        (IgnoreAWS
                                           (KeyValueTags (Tags svm))))));
       w_diag := Some (fun err =>
         AppendErrorf [] "setting tags: %s" [err]) |} ].

(** All the statements the handler reaches when no write fails. *)
Definition writes (meta : AWSClient) (svm : StorageVirtualMachine)
    (d1 : ResourceData) : list Write :=
  app (writes_before svm d1)
      match CreationTime svm with
      | Some t => writes_after meta svm t
      | None => []
      end.

End Writes.

(** ** More sample data *)

Definition sample_svm_no_creation_time : StorageVirtualMachine :=
  {| ActiveDirectoryConfiguration := None;
     CreationTime := None;
     Endpoints := None;
     FileSystemId := None;
     Lifecycle := None;
     LifecycleTransitionReason_ := None;
     Name := None;
     ResourceARN := None;
     RootVolumeSecurityStyle := None;
     StorageVirtualMachineId := Some "svm-1";
     Subtype := None;
     Tags := None;
     UUID := None |}.

Definition find_no_creation_time (_ : DescribeStorageVirtualMachinesInput)
    : Result StorageVirtualMachine := Ok sample_svm_no_creation_time.

Definition sample_env : Collaborators :=
  sample_collaborators find_sample set_accepts.

(** The lookup finds [sample_svm]; the SDK rejects the value of [arn], a
    write whose error the handler does not check. *)
Definition sample_env_arn_rejected : Collaborators :=
  sample_collaborators find_sample (set_rejects "arn").

Definition sample_read_arn_rejected : Step Empty_set * ResourceData :=
  @dataSourceONTAPStorageVirtualMachineRead sample_env_arn_rejected
    sample_meta sample_d.

(** The lookup finds an entity whose creation time is nil. *)
Definition sample_env_no_creation_time : Collaborators :=
  sample_collaborators find_no_creation_time set_accepts.

Definition sample_read_no_creation_time : Step Empty_set * ResourceData :=
  @dataSourceONTAPStorageVirtualMachineRead sample_env_no_creation_time
    sample_meta sample_d.

Definition sample_filters_schema : Schema :=
  {| Type_ := TypeSet; Optional := true; Computed := false;
     Elem := NoElem |}.

Definition sample_tags_schema : Schema :=
  {| Type_ := TypeMap; Optional := false; Computed := true;
     Elem := ElemSchema {| Type_ := TypeString; Optional := false;
                           Computed := false; Elem := NoElem |} |}.

Definition sample_data_source : Resource :=
  @dataSourceONTAPStorageVirtualMachine sample_env sample_filters_schema
    sample_tags_schema.

(** ** Properties of the handler *)

Section ReadProperties.

Context {env : Collaborators}.


Lemma string_app_empty_r (s : string) : s +:+ EmptyString = s.
Proof.
  induction s as [|c s IH]; [reflexivity|].
  change (String c (s +:+ EmptyString) = String c s). f_equal. exact IH.
Qed.

Lemma bind_d_Set_ignored {B : Type} (k : string) (v : Value) (rest : M B)
    (d : ResourceData) :
  (d_Set k v ;;; rest) d = rest (d_Set k v d).2.
Proof.
  unfold bind, d_Set. destruct (setError k v); reflexivity.
Qed.

Lemma bind_d_Set_checked {B : Type} (k : string) (v : Value)
    (h : error -> Diagnostics) (rest : M B) (d : ResourceData) :
  (err <-- d_Set k v ;; if_err err h ;;; rest) d =
  match setError k v with
  | Some e => (Return (h e), (d_Set k v d).2)
  | None => rest (d_Set k v d).2
  end.
Proof.
  unfold bind, d_Set, if_err, return_, ret.
  destruct (setError k v); reflexivity.
Qed.

(** C1: when the remote lookup fails, the handler returns the one
    diagnostic "reading FSx ONTAP Storage Virtual Machine: <error text>"
    and leaves the resource data as it was: no identifier, no attribute
    and no call at all. *)
Theorem read_lookup_error (meta : AWSClient) (d : ResourceData)
    (err : error) :
  findStorageVirtualMachine (describeInput d) = Err err ->
  dataSourceONTAPStorageVirtualMachineRead meta d =
    (Return [{| severity := Error;
                Summary := "reading FSx ONTAP Storage Virtual Machine"
                           +:+ ": " +:+ err;
                Detail := EmptyString |}], d)
  ∧ calls_since d (dataSourceONTAPStorageVirtualMachineRead meta d).2 = [].
Proof.
  intros Hfind.
  assert (Hrun : dataSourceONTAPStorageVirtualMachineRead meta d =
    (Return [{| severity := Error;
                Summary := "reading FSx ONTAP Storage Virtual Machine"
                           +:+ ": " +:+ err;
                Detail := EmptyString |}], d)).
  { unfold dataSourceONTAPStorageVirtualMachineRead, bind, get.
    rewrite Hfind. unfold return_, AppendErrorf. cbn.
    now rewrite string_app_empty_r. }
  split; [exact Hrun|].
  rewrite Hrun. unfold calls_since. cbn. apply drop_all.
Qed.

Lemma clean_app (evs1 evs2 : list Event) :
  clean evs1 -> clean evs2 -> clean (app evs1 evs2).
Proof. unfold clean. intros. now apply Forall_app. Qed.

Lemma fail_fast_pure {A : Type} (r : Step A) :
  fail_fast (fun d => (r, d)).
Proof.
  intros d. exists []. cbn. rewrite app_nil_r. split; [reflexivity|].
  destruct r; try left; constructor.
Qed.

Lemma fail_fast_deref {A : Type} (p : option A) : fail_fast (deref p).
Proof. destruct p; apply fail_fast_pure. Qed.

Lemma fail_fast_get : fail_fast get.
Proof.
  intros d. exists []. cbn. rewrite app_nil_r. split; [reflexivity|].
  constructor.
Qed.

Lemma fail_fast_d_SetId (id : string) : fail_fast (d_SetId id).
Proof.
  intros d. exists [CallSetId id]. cbn. split; [reflexivity|].
  constructor; [|constructor]. cbn. tauto.
Qed.

Lemma fail_fast_d_Set (k : string) (v : Value) :
  k ∉ checked_attributes -> fail_fast (d_Set k v).
Proof.
  intros Hk d. unfold d_Set.
  destruct (setError k v) as [e|]; cbn.
  - exists [CallSet k v (Some e)]. split; [reflexivity|].
    constructor; [exact Hk|constructor].
  - exists [CallSet k v None]. split; [reflexivity|].
    constructor; [cbn; tauto|constructor].
Qed.

Lemma fail_fast_bind {A B : Type} (m : M A) (f : A -> M B) :
  fail_fast m -> (∀ a, fail_fast (f a)) -> fail_fast (bind m f).
Proof.
  intros Hm Hf d. unfold bind.
  destruct (Hm d) as (evs1 & Hcalls1 & Hout1).
  destruct (m d) as [[a|ds|] d1]; cbn in *.
  - destruct (Hf a d1) as (evs2 & Hcalls2 & Hout2).
    exists (app evs1 evs2). split.
    { rewrite Hcalls2, Hcalls1. now rewrite app_assoc. }
    destruct (f a d1).1 as [b|ds|].
    + now apply clean_app.
    + destruct Hout2 as [Hc|(evs0 & k & v & e & -> & Hc & Hk & ->)].
      * left. now apply clean_app.
      * right. exists (app evs1 evs0), k, v, e.
        repeat split; try assumption.
        -- now rewrite app_assoc.
        -- now apply clean_app.
    + now apply clean_app.
  - exists evs1. split; assumption.
  - exists evs1. split; assumption.
Qed.

(** A checked write followed by [if err != nil { return ... }]. *)
Lemma fail_fast_checked {B : Type} (k : string) (v : Value)
    (h : error -> Diagnostics) (rest : M B) :
  k ∈ checked_attributes ->
  (∀ e, h e = setting_diag k e) ->
  fail_fast rest ->
  fail_fast (err <-- d_Set k v ;; if_err err h ;;; rest).
Proof.
  intros Hk Hh Hrest d. rewrite bind_d_Set_checked.
  unfold d_Set. destruct (setError k v) as [e|]; cbn.
  - exists [CallSet k v (Some e)]. split; [reflexivity|].
    right. exists [], k, v, e. repeat split; try assumption.
    + constructor.
    + apply Hh.
  - match goal with |- context [rest ?d1] =>
      destruct (Hrest d1) as (evs & Hcalls & Hout);
      exists (CallSet k v None :: evs); split;
      [ rewrite Hcalls; cbn; now rewrite <- app_assoc |];
      assert (Hev : clean [CallSet k v None])
        by (constructor; [cbn; tauto|constructor]);
      destruct (rest d1).1 as [b|ds|]
    end.
    + now apply (clean_app [_]).
    + destruct Hout as [Hc|(evs0 & k' & v' & e' & -> & Hc & Hk' & ->)].
      * left. now apply (clean_app [_]).
      * right. exists (CallSet k v None :: evs0), k', v', e'.
        repeat split; try assumption. now apply (clean_app [_]).
    + now apply (clean_app [_]).
Qed.

Lemma not_checked (k : string) :
  forallb (fun c => negb (String.eqb k c)) checked_attributes = true ->
  k ∉ checked_attributes.
Proof.
  intros H Hin. rewrite forallb_forall in H.
  apply list_elem_of_In in Hin. specialize (H k Hin).
  now rewrite String.eqb_refl in H.
Qed.

Lemma read_fail_fast (meta : AWSClient) :
  fail_fast (dataSourceONTAPStorageVirtualMachineRead meta).
Proof.
  unfold dataSourceONTAPStorageVirtualMachineRead.
  apply fail_fast_bind; [apply fail_fast_get|]. intros d.
  destruct (findStorageVirtualMachine (describeInput d)) as [svm|err].
  2: { apply fail_fast_pure. }
  repeat first
    [ apply fail_fast_checked;
      [ unfold checked_attributes, names.AttrEndpoints, names.AttrTags;
        set_solver
      | intros e; unfold AppendErrorf, setting_diag; cbn;
        now rewrite string_app_empty_r
      | ]
    | apply fail_fast_bind;
      [ first [ apply fail_fast_d_SetId | apply fail_fast_get
              | apply fail_fast_deref
              | apply fail_fast_d_Set; apply not_checked; reflexivity ]
      | intros ? ]
    | apply fail_fast_pure ].
Qed.

(** C2: when the write of one of the checked attributes
    (active_directory_configuration, endpoints,
    lifecycle_transition_reason, tags) fails during a read, the handler
    returns the diagnostic "setting <attribute>: <error text>" and that
    failed write is the last call made on the resource data. *)
Theorem read_set_error_fails_fast (meta : AWSClient) (d : ResourceData)
    (k : string) (v : Value) (e : error) :
  k ∈ checked_attributes ->
  CallSet k v (Some e) ∈
    calls_since d (dataSourceONTAPStorageVirtualMachineRead meta d).2 ->
  (dataSourceONTAPStorageVirtualMachineRead meta d).1 =
    Return [{| severity := Error;
               Summary := "setting " +:+ k +:+ ": " +:+ e;
               Detail := EmptyString |}]
  ∧ last (calls (dataSourceONTAPStorageVirtualMachineRead meta d).2) =
      Some (CallSet k v (Some e)).
Proof.
  intros Hk Hin.
  destruct (read_fail_fast meta d) as (evs & Hcalls & Hout).
  unfold calls_since in Hin. rewrite Hcalls in Hin |- *.
  rewrite drop_app_length in Hin.
  assert (Hdirty : clean evs -> False).
  { intros Hc. unfold clean in Hc. rewrite Forall_forall in Hc.
    apply (Hc _ Hin). exact Hk. }
  destruct (dataSourceONTAPStorageVirtualMachineRead meta d).1
    as [[]|ds|]; [|now destruct Hdirty].
  destruct Hout as [Hc|(evs0 & k' & v' & e' & -> & Hc & Hk' & ->)];
    [now destruct Hdirty|].
  apply elem_of_app in Hin as [Hin|Hin].
  { exfalso. unfold clean in Hc. rewrite Forall_forall in Hc.
    apply (Hc _ Hin). exact Hk. }
  apply list_elem_of_singleton in Hin. injection Hin as -> -> ->.
  split; [reflexivity|].
  rewrite app_assoc. apply last_snoc.
Qed.

Lemma bind_get {B : Type} (f : ResourceData -> M B) (d : ResourceData) :
  (x <-- get ;; f x) d = f d d.
Proof. reflexivity. Qed.

Lemma bind_d_SetId {B : Type} (id : string) (rest : M B)
    (d : ResourceData) :
  (d_SetId id ;;; rest) d = rest (d_SetId id d).2.
Proof. reflexivity. Qed.

Lemma bind_deref {A B : Type} (p : option A) (f : A -> M B)
    (d : ResourceData) :
  (t <-- deref p ;; f t) d =
  match p with
  | Some t => f t d
  | None => (Panic, d)
  end.
Proof. destruct p; reflexivity. Qed.

Lemma d_Set_accepted (k : string) (v : Value) (d : ResourceData) :
  setError k v = None -> attrs (d_Set k v d).2 !! k = Some v.
Proof.
  intros H. unfold d_Set. rewrite H. cbn. apply lookup_insert_eq.
Qed.

(** What a successful read has written to [tags]. *)
Lemma read_success_tags (meta : AWSClient) (d d' : ResourceData) :
  dataSourceONTAPStorageVirtualMachineRead meta d = (Return [], d') ->
  ∃ svm,
    findStorageVirtualMachine (describeInput d) = Ok svm ∧
    attrs d' !! names.AttrTags =
      Some (VStringMap
              (Map (RemoveDefaultConfig (DefaultTagsConfig meta)
                      (IgnoreConfig_ (IgnoreTagsConfig meta)
                         (IgnoreAWS (KeyValueTags (Tags svm))))))).
Proof.
  unfold dataSourceONTAPStorageVirtualMachineRead.
  rewrite bind_get.
  destruct (findStorageVirtualMachine (describeInput d)) as [svm|err];
    [|discriminate].
  intros Hrun. exists svm. split; [reflexivity|].
  rewrite bind_d_SetId, bind_get in Hrun.
  repeat first
    [ rewrite bind_d_Set_checked in Hrun;
      match type of Hrun with
      | context [setError ?k ?v] =>
          destruct (setError k v) eqn:?; [discriminate Hrun|]
      end
    | rewrite bind_d_Set_ignored in Hrun
    | rewrite bind_deref in Hrun;
      destruct (CreationTime svm); [|discriminate Hrun] ].
  unfold return_ in Hrun. injection Hrun as <-.
  now apply d_Set_accepted.
Qed.

Lemma kept_tags_lookup (ic : option IgnoreConfig) (m : KeyValueTagsMap)
    (k v : string) :
  IgnoreConfig_ ic (IgnoreAWS m) !! k = Some v ↔
  m !! k = Some v ∧ String.prefix AwsTagKeyPrefix k = false ∧
  ignored_by ic k = false.
Proof.
  unfold IgnoreConfig_, IgnoreAWS, Ignore, IgnorePrefixes, ignored_by.
  destruct ic as [i|];
    repeat rewrite map_lookup_filter_Some; cbn;
    rewrite ?orb_false_iff; tauto.
Qed.

Lemma merged_tags_lookup (dc : option DefaultConfig)
    (tags : KeyValueTagsMap) (k v : string) :
  RemoveDefaultConfig dc tags !! k = Some v ->
  tags !! k = Some v ∨ in_default_config dc k v.
Proof.
  unfold RemoveDefaultConfig, in_default_config. destruct dc as [c|].
  - rewrite lookup_union_Some_raw. tauto.
  - now left.
Qed.

Lemma merged_tags_is_Some (dc : option DefaultConfig)
    (tags : KeyValueTagsMap) (k : string) :
  is_Some (RemoveDefaultConfig dc tags !! k) ↔
  is_Some (tags !! k) ∨ ∃ v, in_default_config dc k v.
Proof.
  unfold RemoveDefaultConfig, in_default_config. destruct dc as [c|].
  - rewrite lookup_union_is_Some. unfold is_Some. tauto.
  - split; [now left|]. intros [H|[v []]]. exact H.
Qed.

(** C3: after a successful read the [tags] attribute holds the remote
    entity's tags, without the AWS-reserved ones and without those the
    provider's ignore configuration excludes, merged with the provider's
    default-tag configuration: every entry comes from a kept remote tag or
    from a default tag, and every kept remote tag and every default tag has
    its key in the map. *)
Theorem read_tags_merged (meta : AWSClient) (d d' : ResourceData) :
  dataSourceONTAPStorageVirtualMachineRead meta d = (Return [], d') ->
  ∃ svm t,
    findStorageVirtualMachine (describeInput d) = Ok svm ∧
    attrs d' !! names.AttrTags = Some (VStringMap t) ∧
    (∀ k v, t !! k = Some v ->
       (KeyValueTags (Tags svm) !! k = Some v ∧
        String.prefix AwsTagKeyPrefix k = false ∧
        ignored_by (IgnoreTagsConfig meta) k = false)
       ∨ in_default_config (DefaultTagsConfig meta) k v) ∧
    (∀ k v, KeyValueTags (Tags svm) !! k = Some v ->
       String.prefix AwsTagKeyPrefix k = false ->
       ignored_by (IgnoreTagsConfig meta) k = false ->
       is_Some (t !! k)) ∧
    (∀ k v, in_default_config (DefaultTagsConfig meta) k v ->
       is_Some (t !! k)).
Proof.
  intros Hrun.
  destruct (read_success_tags meta d d' Hrun) as (svm & Hfind & Htags).
  exists svm. eexists. split; [exact Hfind|]. split; [exact Htags|].
  unfold Map. split; [|split].
  - intros k v Hk. apply merged_tags_lookup in Hk as [Hk|Hk].
    + left. now apply kept_tags_lookup.
    + now right.
  - intros k v Hk Haws Hign. apply merged_tags_is_Some. left.
    exists v. now apply kept_tags_lookup.
  - intros k v Hk. apply merged_tags_is_Some. right. now exists v.
Qed.

End ReadProperties.

(** ** The describe request *)

(** C6: when an explicit identifier is configured, the request's identifier
    list is exactly that identifier, and every configured filter block is
    still sent as a filter of the request. *)
Theorem describe_input_with_id (d : ResourceData) (id : string) :
  d_GetOk_id d = (id, true) ->
  StorageVirtualMachineIds (describeInput d) = Some [Some id]
  ∧ Forall (fun b =>
      ∃ l, Filters (describeInput d) = Some l ∧
           {| FilterName := Some (block_name b);
              FilterValues := Some (map Some (block_values b)) |} ∈ l)
      (d_Get_filter d)
  ∧ len (Filters (describeInput d)) = length (d_Get_filter d).
Proof.
  intros Hid. unfold describeInput. rewrite Hid.
  unfold d_Get_filter, newStorageVirtualMachineFilterList, StringSlice.
  destruct (config_filter d) as [|b bs] eqn:Hf; cbn.
  - split; [reflexivity|]. split; [constructor | reflexivity].
  - split; [reflexivity|]. split; [|now rewrite length_map].
    rewrite Forall_forall. intros b' Hb'. eexists. split; [reflexivity|].
    apply (list_elem_of_fmap_2
             (fun b => {| FilterName := Some (block_name b);
                          FilterValues := Some (map Some (block_values b)) |})
             (b :: bs) b' Hb').
Qed.

(** C7: with an empty filter set the request's filters field is nil, not
    an empty list. *)
Theorem describe_input_no_filters (d : ResourceData) :
  d_Get_filter d = [] ->
  Filters (describeInput d) = nil_slice
  ∧ Filters (describeInput d) <> Some [].
Proof.
  intros Hf. unfold describeInput. rewrite Hf. cbn.
  destruct (d_GetOk_id d) as [v []]; cbn; split;
    [reflexivity | discriminate | reflexivity | discriminate].
Qed.

(** ** Properties of flattenLifecycleTransitionReason *)

(** C4: an absent (nil) lifecycle transition reason flattens to the empty
    list, which is not the nil slice. *)
Theorem flatten_nil_is_empty_list :
  flattenLifecycleTransitionReason None = Some []
  ∧ flattenLifecycleTransitionReason None <> nil_slice.
Proof.
  split; [reflexivity | discriminate].
Qed.

(** C5: a present lifecycle transition reason with a message flattens to
    exactly one element, the map binding "message" to that message and
    nothing else. *)
Theorem flatten_with_message (rs : LifecycleTransitionReason)
    (msg : string) :
  Message rs = Some msg ->
  flattenLifecycleTransitionReason (Some rs) =
    Some [VMap {[ "message" := VString msg ]}]
  ∧ len (flattenLifecycleTransitionReason (Some rs)) = 1
  ∧ ({[ "message" := VString msg ]} : gmap string Value) !! "message" =
      Some (VString msg).
Proof.
  intros Hmsg. unfold flattenLifecycleTransitionReason. rewrite Hmsg. cbn.
  repeat split.
Qed.

(** C9: for every input, nil included, the flattener returns a non-nil list
    of at most one element. *)
Theorem flatten_at_most_one (rs : option LifecycleTransitionReason) :
  ∃ l, flattenLifecycleTransitionReason rs = Some l ∧ length l <= 1.
Proof.
  destruct rs as [rs|]; cbn; eexists; split; try reflexivity; cbn; lia.
Qed.

(** C10: a present lifecycle transition reason whose message is absent
    flattens to one element, a map without any "message" key: neither the
    empty list nor a map binding "message" to the empty string. *)
Theorem flatten_without_message (rs : LifecycleTransitionReason) :
  Message rs = None ->
  ∃ m : gmap string Value,
    flattenLifecycleTransitionReason (Some rs) = Some [VMap m]
    ∧ m !! "message" = None
    ∧ flattenLifecycleTransitionReason (Some rs) <> Some []
    ∧ flattenLifecycleTransitionReason (Some rs) <>
        Some [VMap {[ "message" := VString EmptyString ]}].
Proof.
  intros Hmsg. exists ∅.
  unfold flattenLifecycleTransitionReason. rewrite Hmsg.
  split; [reflexivity|]. split; [apply lookup_empty|].
  split; discriminate.
Qed.

Lemma flatten_ptr_reads_snapshot (h : Mem.memory) (rs : option Mem.addr)
    (snap : option LifecycleTransitionReason) :
  Mem.snapshot h rs = Some snap ->
  Mem.flattenLifecycleTransitionReason_ptr h rs =
    Some (flattenLifecycleTransitionReason snap, h).
Proof.
  unfold Mem.snapshot, Mem.flattenLifecycleTransitionReason_ptr,
    Mem.loadStringPtr.
  destruct rs as [a|]; [|now intros [= <-]].
  destruct (Mem.reasons h !! a) as [[[q|]]|]; cbn; [| |discriminate].
  - destruct (Mem.strings h !! q) as [s|]; [|discriminate].
    now intros [= <-].
  - now intros [= <-].
Qed.

(** C8: the flattener is a function of the remote snapshot alone: applied
    twice in a row to the same pointer, it yields the same list both times,
    the flattening of the snapshot the pointer denotes, and it leaves the
    memory holding the snapshot as it was. *)
Theorem flatten_twice_same (h : Mem.memory) (rs : option Mem.addr)
    (snap : option LifecycleTransitionReason) :
  Mem.snapshot h rs = Some snap ->
  Mem.flatten_twice h rs =
    Some (flattenLifecycleTransitionReason snap,
          flattenLifecycleTransitionReason snap, h).
Proof.
  intros Hsnap. unfold Mem.flatten_twice.
  now rewrite !(flatten_ptr_reads_snapshot h rs snap Hsnap).
Qed.

(** ** The properties at the sample data *)

Lemma read_lookup_error_witness :
  @dataSourceONTAPStorageVirtualMachineRead
    (sample_collaborators find_nothing set_accepts) sample_meta sample_d =
    (Return [{| severity := Error;
                Summary :=
                  "reading FSx ONTAP Storage Virtual Machine: empty result";
                Detail := EmptyString |}], sample_d)
  ∧ calls_since sample_d
      (@dataSourceONTAPStorageVirtualMachineRead
         (sample_collaborators find_nothing set_accepts) sample_meta
         sample_d).2 = [].
Proof.
  apply (@read_lookup_error (sample_collaborators find_nothing set_accepts)
           sample_meta sample_d "empty result").
  reflexivity.
Defined.

Lemma read_set_error_fails_fast_witness :
  (@dataSourceONTAPStorageVirtualMachineRead
     (sample_collaborators find_sample (set_rejects "endpoints"))
     sample_meta sample_d).1 =
    Return [{| severity := Error;
               Summary := "setting endpoints: Invalid address to set";
               Detail := EmptyString |}]
  ∧ last (calls (@dataSourceONTAPStorageVirtualMachineRead
                   (sample_collaborators find_sample (set_rejects "endpoints"))
                   sample_meta sample_d).2) =
      Some (CallSet "endpoints" (VSlice (Some []))
              (Some "Invalid address to set")).
Proof.
  apply (@read_set_error_fails_fast
           (sample_collaborators find_sample (set_rejects "endpoints"))
           sample_meta sample_d "endpoints" (VSlice (Some []))
           "Invalid address to set").
  - apply list_elem_of_In. vm_compute. right. left. reflexivity.
  - apply list_elem_of_In. vm_compute. do 4 right. left. reflexivity.
Defined.

Lemma read_tags_merged_witness :
  ∃ svm t,
    find_sample (describeInput sample_d) = Ok svm ∧
    attrs sample_read.2 !! names.AttrTags = Some (VStringMap t) ∧
    (∀ k v, t !! k = Some v ->
       (KeyValueTags (Tags svm) !! k = Some v ∧
        String.prefix AwsTagKeyPrefix k = false ∧
        ignored_by (IgnoreTagsConfig sample_meta) k = false)
       ∨ in_default_config (DefaultTagsConfig sample_meta) k v) ∧
    (∀ k v, KeyValueTags (Tags svm) !! k = Some v ->
       String.prefix AwsTagKeyPrefix k = false ->
       ignored_by (IgnoreTagsConfig sample_meta) k = false ->
       is_Some (t !! k)) ∧
    (∀ k v, in_default_config (DefaultTagsConfig sample_meta) k v ->
       is_Some (t !! k)).
Proof.
  apply (@read_tags_merged (sample_collaborators find_sample set_accepts)
           sample_meta sample_d sample_read.2).
  vm_compute. reflexivity.
Defined.

Lemma describe_input_with_id_witness :
  StorageVirtualMachineIds (describeInput sample_d) =
    Some [Some "svm-0123456789abcdef0"]
  ∧ Forall (fun b =>
      ∃ l, Filters (describeInput sample_d) = Some l ∧
           {| FilterName := Some (block_name b);
              FilterValues := Some (map Some (block_values b)) |} ∈ l)
      (d_Get_filter sample_d)
  ∧ len (Filters (describeInput sample_d)) = length (d_Get_filter sample_d).
Proof.
  apply (describe_input_with_id sample_d "svm-0123456789abcdef0").
  reflexivity.
Defined.

Lemma describe_input_no_filters_witness :
  Filters (describeInput sample_d_no_filter) = nil_slice
  ∧ Filters (describeInput sample_d_no_filter) <> Some [].
Proof.
  apply (describe_input_no_filters sample_d_no_filter). reflexivity.
Defined.

Lemma flatten_with_message_witness :
  flattenLifecycleTransitionReason (Some {| Message := Some "ok" |}) =
    Some [VMap {[ "message" := VString "ok" ]}]
  ∧ len (flattenLifecycleTransitionReason (Some {| Message := Some "ok" |}))
    = 1
  ∧ ({[ "message" := VString "ok" ]} : gmap string Value) !! "message" =
      Some (VString "ok").
Proof.
  apply (flatten_with_message {| Message := Some "ok" |} "ok"). reflexivity.
Defined.

Lemma flatten_without_message_witness :
  ∃ m : gmap string Value,
    flattenLifecycleTransitionReason (Some {| Message := None |}) =
      Some [VMap m]
    ∧ m !! "message" = None
    ∧ flattenLifecycleTransitionReason (Some {| Message := None |}) <>
        Some []
    ∧ flattenLifecycleTransitionReason (Some {| Message := None |}) <>
        Some [VMap {[ "message" := VString EmptyString ]}].
Proof.
  apply (flatten_without_message {| Message := None |}). reflexivity.
Defined.

Lemma flatten_twice_same_witness :
  Mem.flatten_twice Mem.sample_memory (Some 3%positive) =
    Some (Some [VMap {[ "message" := VString "SVM is being created" ]}],
          Some [VMap {[ "message" := VString "SVM is being created" ]}],
          Mem.sample_memory).
Proof.
  apply (flatten_twice_same Mem.sample_memory (Some 3%positive)
           (Some {| Message := Some "SVM is being created" |})).
  vm_compute. reflexivity.
Defined.

(** ** The handler as a run of writes *)

Section WritesProperties.

Context {env : Collaborators}.

Lemma apply_writes_app (ws1 ws2 : list Write) (d : ResourceData) :
  apply_writes (app ws1 ws2) d = apply_writes ws2 (apply_writes ws1 d).
Proof. unfold apply_writes. apply fold_left_app. Qed.

Lemma apply_writes_cons (w : Write) (ws : list Write) (d : ResourceData) :
  apply_writes (w :: ws) d =
  apply_writes ws (d_Set (w_key w) (w_value w) d).2.
Proof. reflexivity. Qed.

Lemma d_Set_calls (k : string) (v : Value) (d : ResourceData) :
  calls (d_Set k v d).2 = app (calls d) [CallSet k v (setError k v)].
Proof. unfold d_Set. destruct (setError k v); reflexivity. Qed.

Lemma d_Set_config (k : string) (v : Value) (d : ResourceData) :
  config_id (d_Set k v d).2 = config_id d
  ∧ config_filter (d_Set k v d).2 = config_filter d
  ∧ Id (d_Set k v d).2 = Id d.
Proof. unfold d_Set. destruct (setError k v); repeat split. Qed.

Lemma d_Set_attrs (k : string) (v : Value) (d : ResourceData) :
  attrs (d_Set k v d).2 =
  match setError k v with
  | None => <[k := v]> (attrs d)
  | Some _ => attrs d
  end.
Proof. unfold d_Set. destruct (setError k v); reflexivity. Qed.

Lemma apply_writes_calls (ws : list Write) (d : ResourceData) :
  calls (apply_writes ws d) = app (calls d) (map write_event ws).
Proof.
  revert d. induction ws as [|w ws IH]; intros d.
  - cbn. now rewrite app_nil_r.
  - rewrite apply_writes_cons, IH, d_Set_calls.
    now rewrite <- app_assoc.
Qed.

Lemma apply_writes_config (ws : list Write) (d : ResourceData) :
  config_id (apply_writes ws d) = config_id d
  ∧ config_filter (apply_writes ws d) = config_filter d
  ∧ Id (apply_writes ws d) = Id d.
Proof.
  revert d. induction ws as [|w ws IH]; intros d; [repeat split|].
  rewrite apply_writes_cons.
  destruct (IH (d_Set (w_key w) (w_value w) d).2) as (-> & -> & ->).
  apply d_Set_config.
Qed.

(** Attributes that no write names keep their value. *)
Lemma apply_writes_frame (ws : list Write) (d : ResourceData) (k : string) :
  k ∉ map w_key ws ->
  attrs (apply_writes ws d) !! k = attrs d !! k.
Proof.
  revert d. induction ws as [|w ws IH]; intros d Hk; [reflexivity|].
  cbn in Hk. apply not_elem_of_cons in Hk as [Hne Hk].
  rewrite apply_writes_cons, IH by exact Hk.
  rewrite d_Set_attrs. destruct (setError (w_key w) (w_value w)).
  - reflexivity.
  - now apply lookup_insert_ne.
Qed.

(** When no attribute is written twice, an accepted write is what the
    attribute holds in the end and a rejected one leaves it alone. *)
Lemma apply_writes_lookup (ws : list Write) (d : ResourceData) (w : Write) :
  NoDup (map w_key ws) ->
  w ∈ ws ->
  attrs (apply_writes ws d) !! w_key w =
  match setError (w_key w) (w_value w) with
  | None => Some (w_value w)
  | Some _ => attrs d !! w_key w
  end.
Proof.
  revert d. induction ws as [|w0 ws IH]; intros d Hnd Hin.
  - now apply elem_of_nil in Hin.
  - cbn in Hnd. apply NoDup_cons in Hnd as [Hfresh Hnd].
    rewrite apply_writes_cons.
    apply elem_of_cons in Hin as [->|Hin].
    + rewrite apply_writes_frame by exact Hfresh.
      rewrite d_Set_attrs. destruct (setError (w_key w0) (w_value w0)).
      * reflexivity.
      * apply lookup_insert_eq.
    + rewrite IH by assumption.
      destruct (setError (w_key w) (w_value w)); [|reflexivity].
      rewrite d_Set_attrs.
      destruct (setError (w_key w0) (w_value w0)); [reflexivity|].
      apply lookup_insert_ne. intros Heq. apply Hfresh. rewrite Heq.
      now apply list_elem_of_fmap_2.
Qed.

(** A run of writes either makes them all and goes on, or stops at the
    first checked write that is rejected. *)
Lemma do_writes_run {B : Type} (ws : list Write) (rest : M B)
    (d : ResourceData) :
  (Forall (fun w => ¬ write_fails w) ws
   ∧ do_writes ws rest d = rest (apply_writes ws d))
  ∨ (∃ pre w post h e,
       ws = app pre (w :: post)
       ∧ Forall (fun w => ¬ write_fails w) pre
       ∧ w_diag w = Some h
       ∧ setError (w_key w) (w_value w) = Some e
       ∧ do_writes ws rest d = (Return (h e), apply_writes (app pre [w]) d)).
Proof.
  revert d. induction ws as [|w ws IH]; intros d.
  - left. split; [constructor | reflexivity].
  - cbn [do_writes]. destruct (w_diag w) as [h|] eqn:Hh.
    + rewrite bind_d_Set_checked.
      destruct (setError (w_key w) (w_value w)) as [e|] eqn:He.
      * right. exists [], w, ws, h, e. repeat split; try assumption.
        constructor.
      * assert (Hw : ¬ write_fails w).
        { intros [_ Hs]. rewrite He in Hs. now destruct Hs. }
        destruct (IH (d_Set (w_key w) (w_value w) d).2)
          as [[Hall Heq]|(pre & w' & post & h' & e' & -> & Hpre & Hh' & He'
                          & Heq)].
        -- left. split; [now constructor | exact Heq].
        -- right. exists (w :: pre), w', post, h', e'.
           repeat split; try assumption. now constructor.
    + rewrite bind_d_Set_ignored.
      assert (Hw : ¬ write_fails w).
      { intros [Hs _]. rewrite Hh in Hs. now destruct Hs. }
      destruct (IH (d_Set (w_key w) (w_value w) d).2)
        as [[Hall Heq]|(pre & w' & post & h' & e' & -> & Hpre & Hh' & He'
                        & Heq)].
      * left. split; [now constructor | exact Heq].
      * right. exists (w :: pre), w', post, h', e'.
        repeat split; try assumption. now constructor.
Qed.

(** The handler, statement by statement. *)
Lemma read_normal_form (meta : AWSClient) (d : ResourceData) :
  dataSourceONTAPStorageVirtualMachineRead meta d =
  match findStorageVirtualMachine (describeInput d) with
  | Err err =>
      (Return (AppendErrorf []
                 "reading FSx ONTAP Storage Virtual Machine: %s" [err]), d)
  | Ok svm =>
      let d1 := (d_SetId (StringValue (StorageVirtualMachineId svm)) d).2 in
      do_writes (writes_before svm d1)
        (t <-- deref (CreationTime svm) ;;
         do_writes (writes_after meta svm t) (return_ []))
        d1
  end.
Proof.
  unfold dataSourceONTAPStorageVirtualMachineRead. rewrite bind_get.
  destruct (findStorageVirtualMachine (describeInput d)); reflexivity.
Qed.

(** How a read that found the entity ends: with every write made and no
    diagnostics, with a panic on a nil creation time, or at the first
    checked write that is rejected. *)
Lemma read_run (meta : AWSClient) (d : ResourceData)
    (svm : StorageVirtualMachine) :
  findStorageVirtualMachine (describeInput d) = Ok svm ->
  let d1 := (d_SetId (StringValue (StorageVirtualMachineId svm)) d).2 in
  let r := dataSourceONTAPStorageVirtualMachineRead meta d in
  ∃ ws rest,
    writes meta svm d1 = app ws rest
    ∧ r.2 = apply_writes ws d1
    ∧ ((r.1 = Return [] ∧ rest = [] ∧ is_Some (CreationTime svm)
        ∧ Forall (fun w => ¬ write_fails w) ws)
       ∨ (r.1 = Panic ∧ ws = writes_before svm d1
          ∧ CreationTime svm = None
          ∧ Forall (fun w => ¬ write_fails w) ws)
       ∨ (∃ pre w h e,
            ws = app pre [w]
            ∧ Forall (fun w => ¬ write_fails w) pre
            ∧ w_diag w = Some h
            ∧ setError (w_key w) (w_value w) = Some e
            ∧ r.1 = Return (h e))).
Proof.
  intros Hfind d1 r. subst r. rewrite read_normal_form, Hfind.
  fold d1. unfold writes.
  destruct (do_writes_run (B:=Empty_set) (writes_before svm d1)
              (t <-- deref (CreationTime svm) ;;
               do_writes (writes_after meta svm t) (return_ [])) d1)
    as [[Hall ->]|(pre & w & post & h & e & Hws & Hpre & Hh & He & ->)].
  - rewrite bind_deref. destruct (CreationTime svm) as [t|].
    + destruct (do_writes_run (B:=Empty_set) (writes_after meta svm t)
                  (return_ [])
                  (apply_writes (writes_before svm d1) d1))
        as [[Hall' ->]|(pre & w & post & h & e & Hws & Hpre & Hh & He & ->)].
      * exists (app (writes_before svm d1) (writes_after meta svm t)), [].
        split; [now rewrite app_nil_r|].
        split; [exact (eq_sym (apply_writes_app (writes_before svm d1)
                                 (writes_after meta svm t) d1))|].
        left. repeat split; [eauto | now apply Forall_app].
      * exists (app (writes_before svm d1) (app pre [w])), post.
        split; [rewrite Hws; now rewrite <- !app_assoc|].
        split; [exact (eq_sym (apply_writes_app (writes_before svm d1)
                                 (app pre [w]) d1))|].
        right. right. exists (app (writes_before svm d1) pre), w, h, e.
        split; [apply app_assoc|].
        split; [now apply Forall_app|].
        repeat split; assumption.
    + exists (writes_before svm d1), [].
      split; [reflexivity|]. split; [reflexivity|].
      right. left. repeat split. exact Hall.
  - exists (app pre [w]),
      (app post match CreationTime svm with
                | Some t => writes_after meta svm t
                | None => []
                end).
    split; [rewrite Hws; now rewrite <- !app_assoc|].
    split; [reflexivity|].
    right. right. exists pre, w, h, e. repeat split; assumption.
Qed.

End WritesProperties.

(** ** Further properties of the handler *)

Section ReadFurther.

Context {env : Collaborators}.

Lemma written_attributes_NoDup : NoDup written_attributes.
Proof. apply (bool_decide_unpack _). vm_compute. reflexivity. Qed.

Lemma writes_keys (meta : AWSClient) (svm : StorageVirtualMachine)
    (d1 : ResourceData) :
  map w_key (writes meta svm d1) =
  match CreationTime svm with
  | Some _ => written_attributes
  | None => ["active_directory_configuration"; names.AttrARN]
  end.
Proof. unfold writes. destruct (CreationTime svm); reflexivity. Qed.

Lemma writes_keys_prefix (meta : AWSClient) (svm : StorageVirtualMachine)
    (d1 : ResourceData) (ws rest : list Write) :
  writes meta svm d1 = app ws rest ->
  map w_key ws `prefix_of` written_attributes.
Proof.
  intros Hws.
  assert (Hk : map w_key (writes meta svm d1) `prefix_of` written_attributes).
  { rewrite writes_keys. destruct (CreationTime svm).
    - reflexivity.
    - now eexists. }
  rewrite Hws, map_app in Hk. destruct Hk as [k Hk].
  exists (app (map w_key rest) k). now rewrite Hk, <- app_assoc.
Qed.

Lemma prefix_NoDup {A : Type} (l1 l2 : list A) :
  l1 `prefix_of` l2 -> NoDup l2 -> NoDup l1.
Proof. intros [k ->] Hnd. now apply NoDup_app in Hnd as [Hnd _]. Qed.

Lemma prefix_elem_of {A : Type} (l1 l2 : list A) (x : A) :
  l1 `prefix_of` l2 -> x ∈ l1 -> x ∈ l2.
Proof. intros [k ->] Hx. apply elem_of_app. now left. Qed.

(** The checked writes report "setting <attribute>: <error text>". *)
Lemma writes_diag (meta : AWSClient) (svm : StorageVirtualMachine)
    (d1 : ResourceData) (w : Write) (h : error -> Diagnostics) (e : error) :
  w ∈ writes meta svm d1 ->
  w_diag w = Some h ->
  h e = setting_diag (w_key w) e ∧ w_key w ∈ checked_attributes.
Proof.
  unfold writes, writes_before, writes_after. intros Hin Hh.
  destruct (CreationTime svm); cbn [app] in Hin;
    repeat (apply elem_of_cons in Hin as [->|Hin]);
    try (now apply elem_of_nil in Hin);
    cbn in Hh; try discriminate Hh; injection Hh as <-;
    (split;
     [ unfold AppendErrorf, setting_diag; cbn;
       now rewrite string_app_empty_r
     | apply (bool_decide_unpack _); vm_compute; reflexivity ]).
Qed.

Lemma writes_unchecked (meta : AWSClient) (svm : StorageVirtualMachine)
    (d1 : ResourceData) (w : Write) :
  w ∈ writes meta svm d1 ->
  w_diag w = None ->
  w_key w ∉ checked_attributes.
Proof.
  unfold writes, writes_before, writes_after. intros Hin Hh.
  destruct (CreationTime svm); cbn [app] in Hin;
    repeat (apply elem_of_cons in Hin as [->|Hin]);
    try (now apply elem_of_nil in Hin);
    cbn in Hh; try discriminate Hh;
    apply not_checked; reflexivity.
Qed.

Lemma calls_since_same (d : ResourceData) : calls_since d d = [].
Proof. unfold calls_since. apply drop_all. Qed.

(** The state and the trace of a read that found the entity. *)
Lemma read_trace (meta : AWSClient) (d : ResourceData)
    (svm : StorageVirtualMachine) :
  findStorageVirtualMachine (describeInput d) = Ok svm ->
  let id := StringValue (StorageVirtualMachineId svm) in
  let d1 := (d_SetId id d).2 in
  let r := dataSourceONTAPStorageVirtualMachineRead meta d in
  ∃ ws rest,
    writes meta svm d1 = app ws rest
    ∧ r.2 = apply_writes ws d1
    ∧ calls_since d r.2 = CallSetId id :: map write_event ws
    ∧ ((r.1 = Return [] ∧ rest = [] ∧ is_Some (CreationTime svm)
        ∧ Forall (fun w => ¬ write_fails w) ws)
       ∨ (r.1 = Panic ∧ ws = writes_before svm d1
          ∧ CreationTime svm = None
          ∧ Forall (fun w => ¬ write_fails w) ws)
       ∨ (∃ pre w h e,
            ws = app pre [w]
            ∧ Forall (fun w => ¬ write_fails w) pre
            ∧ w_diag w = Some h
            ∧ setError (w_key w) (w_value w) = Some e
            ∧ r.1 = Return (h e))).
Proof.
  intros Hfind id d1 r.
  destruct (read_run meta d svm Hfind) as (ws & rest & Hws & Hst & Hout).
  exists ws, rest. split; [exact Hws|]. split; [exact Hst|].
  split; [|exact Hout].
  subst r. rewrite Hst. unfold calls_since.
  rewrite apply_writes_calls. subst d1. cbn [d_SetId snd calls].
  rewrite <- app_assoc. now rewrite drop_app_length.
Qed.

Lemma read_not_found (meta : AWSClient) (d : ResourceData) (err : error) :
  findStorageVirtualMachine (describeInput d) = Err err ->
  dataSourceONTAPStorageVirtualMachineRead meta d =
  (Return (AppendErrorf []
             "reading FSx ONTAP Storage Virtual Machine: %s" [err]), d).
Proof. intros Hfind. now rewrite read_normal_form, Hfind. Qed.

(** X1: the errors of the writes the handler does not check (arn,
    creation_time, file_system_id, lifecycle_status, name, subtype, uuid)
    never fail a read: when the entity is found, has a creation time and
    the SDK accepts the four values the handler writes to the checked
    attributes, the handler returns no diagnostics, whatever happens to the
    other writes. *)
Theorem read_ignores_unchecked_errors (meta : AWSClient) (d : ResourceData)
    (svm : StorageVirtualMachine) :
  findStorageVirtualMachine (describeInput d) = Ok svm ->
  is_Some (CreationTime svm) ->
  setError "active_directory_configuration"
    (VSlice (flattenSvmActiveDirectoryConfiguration
               (d_SetId (StringValue (StorageVirtualMachineId svm)) d).2
               (ActiveDirectoryConfiguration svm))) = None ->
  setError names.AttrEndpoints
    (VSlice (flattenSvmEndpoints (Endpoints svm))) = None ->
  setError "lifecycle_transition_reason"
    (VSlice (flattenLifecycleTransitionReason
               (LifecycleTransitionReason_ svm))) = None ->
  setError names.AttrTags
    (VStringMap (Map (RemoveDefaultConfig (DefaultTagsConfig meta)
                        (IgnoreConfig_ (IgnoreTagsConfig meta)
                           (IgnoreAWS (KeyValueTags (Tags svm))))))) = None ->
  (dataSourceONTAPStorageVirtualMachineRead meta d).1 = Return [].
Proof.
  intros Hfind [t Ht] Hadc Hend Hltr Htags.
  destruct (read_trace meta d svm Hfind)
    as (ws & rest & Hws & _ & _ & [Hok|[Hpanic|Hfail]]).
  - apply Hok.
  - destruct Hpanic as (_ & _ & Hnone & _). rewrite Hnone in Ht.
    discriminate.
  - exfalso.
    destruct Hfail as (pre & w & h & e & -> & _ & Hh & He & _).
    assert (Hin : w ∈ writes meta svm
                    (d_SetId (StringValue (StorageVirtualMachineId svm)) d).2).
    { rewrite Hws. apply elem_of_app. left. apply elem_of_app. right.
      now apply list_elem_of_singleton. }
    clear Hws. unfold writes, writes_before, writes_after in Hin.
    rewrite Ht in Hin. cbn [app] in Hin.
    repeat (apply elem_of_cons in Hin as [->|Hin]);
      try (now apply elem_of_nil in Hin);
      cbn [w_key w_value w_diag] in Hh, He;
      first [ discriminate Hh | congruence ].
Qed.

(** X2: the handler panics exactly when the entity is found, its creation
    time is nil and the write of active_directory_configuration is
    accepted; by then it has set the identifier and called [d.Set] for
    active_directory_configuration and arn, and nothing else. *)
Theorem read_panics_iff (meta : AWSClient) (d : ResourceData) :
  ((dataSourceONTAPStorageVirtualMachineRead meta d).1 = Panic ↔
   ∃ svm,
     findStorageVirtualMachine (describeInput d) = Ok svm
     ∧ CreationTime svm = None
     ∧ setError "active_directory_configuration"
         (VSlice (flattenSvmActiveDirectoryConfiguration
                    (d_SetId (StringValue (StorageVirtualMachineId svm)) d).2
                    (ActiveDirectoryConfiguration svm))) = None)
  ∧ ((dataSourceONTAPStorageVirtualMachineRead meta d).1 = Panic ->
     map event_key
       (calls_since d (dataSourceONTAPStorageVirtualMachineRead meta d).2) =
     [None; Some "active_directory_configuration"; Some names.AttrARN]).
Proof.
  destruct (findStorageVirtualMachine (describeInput d)) as [svm|err]
    eqn:Hfind.
  2: { rewrite (read_not_found meta d err Hfind). split.
       - split; [discriminate|]. intros (svm & Hsvm & _). discriminate.
       - discriminate. }
  destruct (read_trace meta d svm Hfind)
    as (ws & rest & Hws & _ & Hcalls & Hout).
  split; [split|].
  - intros Hp. exists svm. split; [reflexivity|].
    destruct Hout as [Hok|[Hpanic|Hfail]].
    + destruct Hok as [Hr _]. rewrite Hr in Hp. discriminate.
    + destruct Hpanic as (_ & -> & Hnone & Hall). split; [exact Hnone|].
      apply Forall_cons in Hall as [Hadc _].
      destruct (setError "active_directory_configuration"
                  (VSlice (flattenSvmActiveDirectoryConfiguration
                     (d_SetId (StringValue (StorageVirtualMachineId svm))
                        d).2
                     (ActiveDirectoryConfiguration svm)))) as [e|] eqn:He;
        [|reflexivity].
      exfalso. apply Hadc.
      split; [cbn [w_diag]; eauto | cbn [w_key w_value]; rewrite He; eauto].
    + destruct Hfail as (pre & w & h & e & _ & _ & _ & _ & Hr).
      rewrite Hr in Hp. discriminate.
  - intros (svm' & [= <-] & Hnone & Hadc).
    destruct Hout as [Hok|[Hpanic|Hfail]].
    + destruct Hok as (_ & _ & Ht & _). rewrite Hnone in Ht.
      now destruct Ht.
    + apply Hpanic.
    + exfalso.
      destruct Hfail as (pre & w & h & e & -> & _ & Hh & He & _).
      unfold writes in Hws. rewrite Hnone, app_nil_r in Hws.
      assert (Hin : w ∈ writes_before svm
                (d_SetId (StringValue (StorageVirtualMachineId svm)) d).2).
      { rewrite Hws. apply elem_of_app. left. apply elem_of_app. right.
        now apply list_elem_of_singleton. }
      unfold writes_before in Hin.
      repeat (apply elem_of_cons in Hin as [->|Hin]);
        try (now apply elem_of_nil in Hin).
      * cbn [w_key w_value] in He. rewrite Hadc in He. discriminate.
      * discriminate Hh.
  - intros Hp. rewrite Hcalls.
    destruct Hout as [Hok|[Hpanic|Hfail]].
    + destruct Hok as [Hr _]. rewrite Hr in Hp. discriminate.
    + destruct Hpanic as (_ & -> & _ & _). reflexivity.
    + destruct Hfail as (pre & w & h & e & _ & _ & _ & _ & Hr).
      rewrite Hr in Hp. discriminate.
Qed.

(** X3: once the entity is found, the state identifier is the entity's
    identifier (the empty string for a nil one) and setting it is the first
    call made, however the read ends afterwards. *)
Theorem read_sets_id_first (meta : AWSClient) (d : ResourceData)
    (svm : StorageVirtualMachine) :
  findStorageVirtualMachine (describeInput d) = Ok svm ->
  Id (dataSourceONTAPStorageVirtualMachineRead meta d).2 =
    StringValue (StorageVirtualMachineId svm)
  ∧ head (calls_since d (dataSourceONTAPStorageVirtualMachineRead meta d).2)
    = Some (CallSetId (StringValue (StorageVirtualMachineId svm))).
Proof.
  intros Hfind.
  destruct (read_trace meta d svm Hfind)
    as (ws & rest & _ & Hst & Hcalls & _).
  rewrite Hcalls, Hst. split; [|reflexivity].
  now destruct (apply_writes_config ws
    (d_SetId (StringValue (StorageVirtualMachineId svm)) d).2)
    as (_ & _ & ->).
Qed.

Lemma trace_keys (id : string) (ws : list Write) :
  map event_key (CallSetId id :: map write_event ws) =
  None :: map Some (map w_key ws).
Proof. cbn [map event_key]. f_equal. now rewrite !map_map. Qed.

(** The trace of a read that returns no diagnostics. *)
Lemma read_success_trace (meta : AWSClient) (d : ResourceData) :
  (dataSourceONTAPStorageVirtualMachineRead meta d).1 = Return [] ->
  ∃ svm t,
    findStorageVirtualMachine (describeInput d) = Ok svm
    ∧ CreationTime svm = Some t
    ∧ calls_since d (dataSourceONTAPStorageVirtualMachineRead meta d).2 =
        CallSetId (StringValue (StorageVirtualMachineId svm))
        :: map write_event
             (writes meta svm
                (d_SetId (StringValue (StorageVirtualMachineId svm)) d).2).
Proof.
  intros Hr.
  destruct (findStorageVirtualMachine (describeInput d)) as [svm|err]
    eqn:Hfind.
  2: { rewrite (read_not_found meta d err Hfind) in Hr. discriminate. }
  destruct (read_trace meta d svm Hfind)
    as (ws & rest & Hws & _ & Hcalls & [Hok|[Hpanic|Hfail]]).
  - destruct Hok as (_ & -> & [t Ht] & _). rewrite app_nil_r in Hws.
    exists svm, t. rewrite Hws. repeat split; assumption.
  - destruct Hpanic as [Hp _]. rewrite Hp in Hr. discriminate.
  - destruct Hfail as (pre & w & h & e & -> & _ & Hh & _ & Hret).
    assert (Hin : w ∈ writes meta svm
                    (d_SetId (StringValue (StorageVirtualMachineId svm)) d).2).
    { rewrite Hws. apply elem_of_app. left. apply elem_of_app. right.
      now apply list_elem_of_singleton. }
    destruct (writes_diag meta svm _ w h e Hin Hh) as [Hd _].
    rewrite Hret, Hd in Hr. discriminate.
Qed.

(** X4: whatever the outcome, the handler changes through [d.Set] no
    attribute other than the eleven it writes: every other attribute, the
    [filter] input among them, holds what it held before the read.  The
    [id] attribute, which the read sets through [SetId], is left out of the
    statement. *)
Theorem read_frame (meta : AWSClient) (d : ResourceData) (k : string) :
  k ∉ written_attributes ->
  k ≠ names.AttrID ->
  attrs (dataSourceONTAPStorageVirtualMachineRead meta d).2 !! k =
  attrs d !! k.
Proof.
  intros Hk _.
  destruct (findStorageVirtualMachine (describeInput d)) as [svm|err]
    eqn:Hfind.
  2: { rewrite (read_not_found meta d err Hfind). reflexivity. }
  destruct (read_trace meta d svm Hfind)
    as (ws & rest & Hws & Hst & _ & _).
  rewrite Hst.
  rewrite apply_writes_frame; [reflexivity|].
  intros Hin. apply Hk.
  exact (prefix_elem_of _ _ _ (writes_keys_prefix meta svm _ ws rest Hws) Hin).
Qed.

(** X5: a read that returns no diagnostics has set the identifier and then
    called [d.Set] once for each of the eleven attributes, in program
    order. *)
Theorem read_success_writes_all (meta : AWSClient) (d : ResourceData) :
  (dataSourceONTAPStorageVirtualMachineRead meta d).1 = Return [] ->
  map event_key
    (calls_since d (dataSourceONTAPStorageVirtualMachineRead meta d).2) =
  None :: map Some written_attributes.
Proof.
  intros Hr.
  destruct (read_success_trace meta d Hr) as (svm & t & _ & Ht & Hcalls).
  rewrite Hcalls, trace_keys, writes_keys, Ht. reflexivity.
Qed.

(** X6: in every read the calls made are a prefix of: set the identifier,
    then write the eleven attributes in program order.  No attribute is
    written twice and none before the identifier is set. *)
Theorem read_calls_in_order (meta : AWSClient) (d : ResourceData) :
  map event_key
    (calls_since d (dataSourceONTAPStorageVirtualMachineRead meta d).2)
  `prefix_of` (None :: map Some written_attributes).
Proof.
  destruct (findStorageVirtualMachine (describeInput d)) as [svm|err]
    eqn:Hfind.
  2: { rewrite (read_not_found meta d err Hfind). cbn [snd].
       rewrite calls_since_same. apply prefix_nil. }
  destruct (read_trace meta d svm Hfind)
    as (ws & rest & Hws & _ & Hcalls & _).
  rewrite Hcalls. cbn [map event_key]. apply prefix_cons.
  rewrite map_map. cbn [write_event event_key].
  rewrite <- (map_map w_key Some).
  destruct (writes_keys_prefix meta svm _ ws rest Hws) as [k Hk].
  exists (map Some k). now rewrite Hk, map_app.
Qed.

(** X7: every [d.Set] call of a read carries the SDK's verdict on its
    value, and the final state agrees with it: an accepted value is what
    the attribute holds when the handler returns, a rejected one leaves the
    attribute as it was before the read. *)
Theorem read_calls_faithful (meta : AWSClient) (d : ResourceData)
    (k : string) (v : Value) (r : option error) :
  CallSet k v r ∈
    calls_since d (dataSourceONTAPStorageVirtualMachineRead meta d).2 ->
  r = setError k v
  ∧ attrs (dataSourceONTAPStorageVirtualMachineRead meta d).2 !! k =
      match r with
      | None => Some v
      | Some _ => attrs d !! k
      end.
Proof.
  intros Hin.
  destruct (findStorageVirtualMachine (describeInput d)) as [svm|err]
    eqn:Hfind.
  2: { rewrite (read_not_found meta d err Hfind) in Hin. cbn [snd] in Hin.
       rewrite calls_since_same in Hin. now apply elem_of_nil in Hin. }
  destruct (read_trace meta d svm Hfind)
    as (ws & rest & Hws & Hst & Hcalls & _).
  rewrite Hcalls in Hin. apply elem_of_cons in Hin as [Hin|Hin];
    [discriminate|].
  apply list_elem_of_fmap in Hin as (w & Hev & Hw).
  unfold write_event in Hev. injection Hev as -> -> ->.
  split; [reflexivity|]. rewrite Hst.
  rewrite apply_writes_lookup; [reflexivity| |exact Hw].
  exact (prefix_NoDup _ _ (writes_keys_prefix meta svm _ ws rest Hws)
           written_attributes_NoDup).
Qed.

(** X8: the handler returns at most one diagnostic, and it is an error:
    it never reports a warning and never accumulates several failures. *)
Theorem read_at_most_one_error (meta : AWSClient) (d : ResourceData)
    (ds : Diagnostics) :
  (dataSourceONTAPStorageVirtualMachineRead meta d).1 = Return ds ->
  length ds <= 1 ∧ Forall (fun x => severity x = Error) ds.
Proof.
  intros Hr.
  destruct (findStorageVirtualMachine (describeInput d)) as [svm|err]
    eqn:Hfind.
  2: { rewrite (read_not_found meta d err Hfind) in Hr.
       injection Hr as <-. split; [cbn; lia|]. now repeat constructor. }
  destruct (read_trace meta d svm Hfind)
    as (ws & rest & Hws & _ & _ & [Hok|[Hpanic|Hfail]]).
  - destruct Hok as [Hok _]. rewrite Hok in Hr. injection Hr as <-.
    split; [cbn; lia | constructor].
  - destruct Hpanic as [Hp _]. rewrite Hp in Hr. discriminate.
  - destruct Hfail as (pre & w & h & e & -> & _ & Hh & _ & Hret).
    assert (Hin : w ∈ writes meta svm
                    (d_SetId (StringValue (StorageVirtualMachineId svm)) d).2).
    { rewrite Hws. apply elem_of_app. left. apply elem_of_app. right.
      now apply list_elem_of_singleton. }
    destruct (writes_diag meta svm _ w h e Hin Hh) as [Hd _].
    rewrite Hret, Hd in Hr. injection Hr as <-.
    split; [cbn; lia|]. now repeat constructor.
Qed.

(** X9: after a read that returns no diagnostics, the three nested
    attributes besides tags hold the flattened remote structures:
    lifecycle_transition_reason the flattening of the remote reason,
    endpoints and active_directory_configuration what their flatteners
    returned. *)
Theorem read_success_nested_values (meta : AWSClient) (d : ResourceData) :
  (dataSourceONTAPStorageVirtualMachineRead meta d).1 = Return [] ->
  ∃ svm,
    findStorageVirtualMachine (describeInput d) = Ok svm
    ∧ attrs (dataSourceONTAPStorageVirtualMachineRead meta d).2
        !! "lifecycle_transition_reason" =
      Some (VSlice (flattenLifecycleTransitionReason
                      (LifecycleTransitionReason_ svm)))
    ∧ attrs (dataSourceONTAPStorageVirtualMachineRead meta d).2
        !! names.AttrEndpoints =
      Some (VSlice (flattenSvmEndpoints (Endpoints svm)))
    ∧ attrs (dataSourceONTAPStorageVirtualMachineRead meta d).2
        !! "active_directory_configuration" =
      Some (VSlice (flattenSvmActiveDirectoryConfiguration
                      (d_SetId (StringValue (StorageVirtualMachineId svm))
                         d).2
                      (ActiveDirectoryConfiguration svm))).
Proof.
  intros Hr.
  destruct (findStorageVirtualMachine (describeInput d)) as [svm|err]
    eqn:Hfind.
  2: { rewrite (read_not_found meta d err Hfind) in Hr. discriminate. }
  exists svm. split; [reflexivity|].
  destruct (read_trace meta d svm Hfind)
    as (ws & rest & Hws & Hst & _ & [Hok|[Hpanic|Hfail]]).
  - destruct Hok as (_ & -> & [t Ht] & Hall).
    rewrite app_nil_r in Hws. subst ws. rewrite Hst.
    assert (Hnd : NoDup (map w_key (writes meta svm
              (d_SetId (StringValue (StorageVirtualMachineId svm)) d).2))).
    { rewrite writes_keys, Ht. apply written_attributes_NoDup. }
    assert (Hl : writes meta svm
              (d_SetId (StringValue (StorageVirtualMachineId svm)) d).2 =
            app (writes_before svm
                   (d_SetId (StringValue (StorageVirtualMachineId svm)) d).2)
                (writes_after meta svm t)).
    { unfold writes. now rewrite Ht. }
    assert (Hval : ∀ w h,
              w ∈ app (writes_before svm
                   (d_SetId (StringValue (StorageVirtualMachineId svm)) d).2)
                (writes_after meta svm t) ->
              w_diag w = Some h ->
              attrs (apply_writes (writes meta svm
                (d_SetId (StringValue (StorageVirtualMachineId svm)) d).2)
                (d_SetId (StringValue (StorageVirtualMachineId svm)) d).2)
                !! w_key w = Some (w_value w)).
    { intros w h Hw Hh. rewrite <- Hl in Hw.
      rewrite apply_writes_lookup by assumption.
      destruct (setError (w_key w) (w_value w)) eqn:He; [|reflexivity].
      exfalso. rewrite Forall_forall in Hall. apply (Hall w Hw).
      split; [rewrite Hh|rewrite He]; eauto. }
    unfold writes_before, writes_after in Hval. cbn [app] in Hval.
    split; [|split].
    + exact (Hval _ _
               ltac:(do 6 apply list_elem_of_further;
                     apply list_elem_of_here) eq_refl).
    + exact (Hval _ _
               ltac:(do 3 apply list_elem_of_further;
                     apply list_elem_of_here) eq_refl).
    + exact (Hval _ _ ltac:(apply list_elem_of_here) eq_refl).
  - destruct Hpanic as [Hp _]. rewrite Hp in Hr. discriminate.
  - destruct Hfail as (pre & w & h & e & -> & _ & Hh & _ & Hret).
    assert (Hin : w ∈ writes meta svm
                    (d_SetId (StringValue (StorageVirtualMachineId svm)) d).2).
    { rewrite Hws. apply elem_of_app. left. apply elem_of_app. right.
      now apply list_elem_of_singleton. }
    destruct (writes_diag meta svm _ w h e Hin Hh) as [Hd _].
    rewrite Hret, Hd in Hr. discriminate.
Qed.

End ReadFurther.

(** ** Further properties of the describe request *)

(** X11: when no identifier is configured (or it is the empty string), the
    request carries no identifier list at all, and the configured filters
    alone restrict it. *)
Theorem describe_input_without_id (d : ResourceData) :
  (d_GetOk_id d).2 = false ->
  StorageVirtualMachineIds (describeInput d) = nil_slice
  ∧ len (Filters (describeInput d)) = length (d_Get_filter d).
Proof.
  intros Hid. unfold describeInput.
  destruct (d_GetOk_id d) as [v ok]. cbn in Hid. subst ok.
  unfold d_Get_filter, newStorageVirtualMachineFilterList.
  destruct (config_filter d) as [|b bs]; cbn; [split; reflexivity|].
  split; [reflexivity | now rewrite length_map].
Qed.

(** X12: with neither an identifier nor a filter configured, the request
    is the empty request: every field is nil, so the lookup ranges over
    all storage virtual machines. *)
Theorem describe_input_unrestricted (d : ResourceData) :
  (d_GetOk_id d).2 = false ->
  d_Get_filter d = [] ->
  describeInput d =
    {| Filters := None; MaxResults := None; NextToken := None;
       StorageVirtualMachineIds := None |}.
Proof.
  intros Hid Hf. unfold describeInput. rewrite Hf.
  destruct (d_GetOk_id d) as [v ok]. cbn in Hid. subst ok. reflexivity.
Qed.

(** ** Further properties of flattenLifecycleTransitionReason *)

(** X13: flattening loses nothing: two inputs with the same flattened list
    are the same input.  A nil reason, a reason without message and a
    reason with the empty message are told apart. *)
Theorem flatten_injective (rs1 rs2 : option LifecycleTransitionReason) :
  flattenLifecycleTransitionReason rs1 = flattenLifecycleTransitionReason rs2
  -> rs1 = rs2.
Proof.
  intros Heq.
  apply (f_equal (fun r : slice Value =>
                    match r with
                    | Some [VMap m] => Some (m !! "message")
                    | _ => None
                    end)) in Heq.
  destruct rs1 as [[[m1|]]|], rs2 as [[[m2|]]|];
    unfold flattenLifecycleTransitionReason in Heq;
    cbn [Message StringValue] in Heq;
    rewrite ?lookup_insert_eq, ?lookup_empty in Heq;
    try reflexivity; try discriminate Heq.
  now injection Heq as ->.
Qed.

(** ** The handler and the schema *)

Section SchemaProperties.

Context {env : Collaborators}.
Variable storageVirtualMachineFiltersSchema : Schema.
Variable TagsSchemaComputed : Schema.

Lemma schema_lookup_written (k : string) :
  k ∈ written_attributes ->
  ∃ s,
    Schema_ (dataSourceONTAPStorageVirtualMachine
               storageVirtualMachineFiltersSchema TagsSchemaComputed) !! k
      = Some s.
Proof.
  unfold written_attributes. intros Hk.
  repeat (apply elem_of_cons in Hk as [->|Hk]);
    try (now apply elem_of_nil in Hk);
    eexists; vm_compute; reflexivity.
Qed.

(** X14: every element the flattener produces fits the nested block the
    schema declares for lifecycle_transition_reason: it is a map, each of
    its keys is declared in the block, and the value under it has the
    declared type. *)
Theorem flatten_fits_schema (rs : option LifecycleTransitionReason)
    (l : list Value) (v : Value) :
  flattenLifecycleTransitionReason rs = Some l ->
  v ∈ l ->
  ∃ m s,
    v = VMap m
    ∧ Schema_ (dataSourceONTAPStorageVirtualMachine
                 storageVirtualMachineFiltersSchema TagsSchemaComputed)
        !! "lifecycle_transition_reason" = Some s
    ∧ ∀ k x, m !! k = Some x ->
        ∃ sk, nested_names_of s !! k = Some sk
              ∧ value_fits (Type_ sk) x = true.
Proof.
  intros Hfl Hv.
  destruct rs as [[msg]|]; cbn in Hfl; injection Hfl as <-.
  2: { now apply elem_of_nil in Hv. }
  apply list_elem_of_singleton in Hv. subst v.
  eexists. eexists. split; [reflexivity|].
  split; [vm_compute; reflexivity|].
  intros k x Hk. destruct msg as [s|].
  - apply lookup_insert_Some in Hk as [[<- <-]|[_ Hk]].
    + eexists. split; [vm_compute; reflexivity | reflexivity].
    + rewrite lookup_empty in Hk. discriminate.
  - rewrite lookup_empty in Hk. discriminate.
Qed.

(** X15: every attribute the handler passes to [d.Set], in any read, is
    declared by the data source's schema; and, tags aside (its schema is
    built elsewhere), it is declared computed and the value passed has the
    Go type of the declared schema type. *)
Theorem read_writes_declared (meta : AWSClient) (d : ResourceData)
    (k : string) (v : Value) (r : option error) :
  CallSet k v r ∈
    calls_since d (dataSourceONTAPStorageVirtualMachineRead meta d).2 ->
  ∃ s,
    Schema_ (dataSourceONTAPStorageVirtualMachine
               storageVirtualMachineFiltersSchema TagsSchemaComputed) !! k
      = Some s
    ∧ (k ≠ names.AttrTags ->
       Computed s = true ∧ value_fits (Type_ s) v = true).
Proof.
  intros Hin.
  destruct (findStorageVirtualMachine (describeInput d)) as [svm|err]
    eqn:Hfind.
  2: { rewrite (read_not_found meta d err Hfind) in Hin. cbn [snd] in Hin.
       rewrite calls_since_same in Hin. now apply elem_of_nil in Hin. }
  destruct (read_trace meta d svm Hfind)
    as (ws & rest & Hws & _ & Hcalls & _).
  rewrite Hcalls in Hin. apply elem_of_cons in Hin as [Hin|Hin];
    [discriminate|].
  apply list_elem_of_fmap in Hin as (w & Hev & Hw).
  unfold write_event in Hev. injection Hev as -> -> _.
  assert (Hin : w ∈ writes meta svm
                  (d_SetId (StringValue (StorageVirtualMachineId svm)) d).2).
  { rewrite Hws. apply elem_of_app. now left. }
  clear Hws Hw Hcalls.
  unfold writes, writes_before, writes_after in Hin.
  destruct (CreationTime svm); cbn [app] in Hin;
    repeat (apply elem_of_cons in Hin as [->|Hin]);
    try (now apply elem_of_nil in Hin);
    cbn [w_key w_value];
    (eexists; split;
     [ vm_compute; reflexivity
     | intros Hne; first [ now destruct Hne | split; reflexivity ] ]).
Qed.

(** X16: the schema declares exactly the attributes a successful read
    writes, plus the two inputs [filter] and [id]: after a read that
    returns no diagnostics, an attribute is declared if and only if it is
    [filter], [id], or was passed to [d.Set] during the read. *)
Theorem read_success_covers_schema (meta : AWSClient) (d : ResourceData)
    (k : string) :
  (dataSourceONTAPStorageVirtualMachineRead meta d).1 = Return [] ->
  (is_Some (Schema_ (dataSourceONTAPStorageVirtualMachine
                       storageVirtualMachineFiltersSchema TagsSchemaComputed)
              !! k)
   ↔ k = names.AttrFilter ∨ k = names.AttrID
     ∨ ∃ v r, CallSet k v r ∈
         calls_since d (dataSourceONTAPStorageVirtualMachineRead meta d).2).
Proof.
  intros Hr.
  assert (Hkeys : (∃ v r, CallSet k v r ∈
            calls_since d (dataSourceONTAPStorageVirtualMachineRead meta d).2)
          ↔ k ∈ written_attributes).
  { destruct (read_success_trace meta d Hr) as (svm & t & _ & Ht & Hcalls).
    assert (Hall : map event_key
              (calls_since d
                 (dataSourceONTAPStorageVirtualMachineRead meta d).2) =
            None :: map Some written_attributes).
    { now rewrite Hcalls, trace_keys, writes_keys, Ht. }
    clear Hcalls. split.
    - intros (v & r & Hin0).
      assert (Hin : Some k ∈ map event_key
                (calls_since d
                   (dataSourceONTAPStorageVirtualMachineRead meta d).2))
        by exact (list_elem_of_fmap_2 event_key _ _ Hin0).
      rewrite Hall in Hin.
      apply elem_of_cons in Hin as [Hin|Hin]; [discriminate|].
      apply list_elem_of_fmap in Hin as (k' & [= <-] & Hk'). exact Hk'.
    - intros Hk.
      assert (Hin : Some k ∈ map event_key
                (calls_since d
                   (dataSourceONTAPStorageVirtualMachineRead meta d).2)).
      { rewrite Hall. apply list_elem_of_further.
        now apply list_elem_of_fmap_2. }
      apply list_elem_of_fmap in Hin as (ev & Hev & Hin).
      destruct ev as [id|k' v r]; [discriminate|].
      injection Hev as <-. eauto. }
  rewrite Hkeys. split.
  - intros [s Hs].
    destruct (decide (k ∈
      (names.AttrFilter :: names.AttrID :: written_attributes))) as [Hk|Hk].
    + apply elem_of_cons in Hk as [->|Hk]; [now left|].
      apply elem_of_cons in Hk as [->|Hk]; [right; now left|].
      right. now right.
    + exfalso.
      assert (Hnone : Schema_ (dataSourceONTAPStorageVirtualMachine
                storageVirtualMachineFiltersSchema TagsSchemaComputed) !! k
              = None).
      { apply not_elem_of_list_to_map_1. intros Hin. apply Hk.
        cbn in Hin. unfold written_attributes.
        repeat (apply elem_of_cons in Hin as [->|Hin]);
          try (now apply elem_of_nil in Hin);
          apply (bool_decide_unpack _); vm_compute; reflexivity. }
      rewrite Hnone in Hs. discriminate.
  - intros [->|[->|Hk]].
    + eexists. vm_compute. reflexivity.
    + eexists. vm_compute. reflexivity.
    + destruct (schema_lookup_written k Hk) as [s Hs]. eauto.
Qed.

End SchemaProperties.

(** ** The further properties at the sample data *)

Lemma read_ignores_unchecked_errors_witness :
  sample_read_arn_rejected.1 = Return [].
Proof.
  apply (@read_ignores_unchecked_errors sample_env_arn_rejected sample_meta
           sample_d sample_svm).
  - reflexivity.
  - eexists. reflexivity.
  - reflexivity.
  - reflexivity.
  - reflexivity.
  - reflexivity.
Defined.

Lemma read_panics_iff_witness :
  map event_key (calls_since sample_d sample_read_no_creation_time.2) =
  [None; Some "active_directory_configuration"; Some names.AttrARN].
Proof.
  apply (proj2 (@read_panics_iff sample_env_no_creation_time sample_meta
                  sample_d)).
  vm_compute. reflexivity.
Defined.

Lemma read_sets_id_first_witness :
  Id sample_read.2 = "svm-0123456789abcdef0"
  ∧ head (calls_since sample_d sample_read.2) =
      Some (CallSetId "svm-0123456789abcdef0").
Proof.
  apply (@read_sets_id_first sample_env sample_meta sample_d sample_svm).
  reflexivity.
Defined.

Lemma read_frame_witness :
  attrs sample_read.2 !! names.AttrFilter = attrs sample_d !! names.AttrFilter.
Proof.
  apply (@read_frame sample_env sample_meta sample_d names.AttrFilter).
  - apply (bool_decide_unpack _). vm_compute. reflexivity.
  - discriminate.
Defined.

Lemma read_success_writes_all_witness :
  map event_key (calls_since sample_d sample_read.2) =
  None :: map Some written_attributes.
Proof.
  apply (@read_success_writes_all sample_env sample_meta sample_d).
  vm_compute. reflexivity.
Defined.

Lemma read_calls_faithful_witness :
  Some "Invalid address to set" =
    set_rejects "arn" "arn" (VStringPtr (ResourceARN sample_svm))
  ∧ attrs sample_read_arn_rejected.2 !! "arn" = attrs sample_d !! "arn".
Proof.
  apply (@read_calls_faithful sample_env_arn_rejected sample_meta sample_d
           "arn" (VStringPtr (ResourceARN sample_svm))
           (Some "Invalid address to set")).
  apply list_elem_of_In. vm_compute. do 2 right. left. reflexivity.
Defined.

Lemma read_at_most_one_error_witness :
  length [{| severity := Error;
             Summary :=
               "reading FSx ONTAP Storage Virtual Machine: empty result";
             Detail := EmptyString |}] <= 1
  ∧ Forall (fun x => severity x = Error)
      [{| severity := Error;
          Summary :=
            "reading FSx ONTAP Storage Virtual Machine: empty result";
          Detail := EmptyString |}].
Proof.
  apply (@read_at_most_one_error
           (sample_collaborators find_nothing set_accepts) sample_meta
           sample_d).
  vm_compute. reflexivity.
Defined.

Lemma read_success_nested_values_witness :
  ∃ svm,
    @findStorageVirtualMachine sample_env (describeInput sample_d) = Ok svm
    ∧ attrs sample_read.2 !! "lifecycle_transition_reason" =
      Some (VSlice (flattenLifecycleTransitionReason
                      (LifecycleTransitionReason_ svm)))
    ∧ attrs sample_read.2 !! names.AttrEndpoints =
      Some (VSlice (@flattenSvmEndpoints sample_env (Endpoints svm)))
    ∧ attrs sample_read.2 !! "active_directory_configuration" =
      Some (VSlice (@flattenSvmActiveDirectoryConfiguration sample_env
                      (d_SetId (StringValue (StorageVirtualMachineId svm))
                         sample_d).2
                      (ActiveDirectoryConfiguration svm))).
Proof.
  apply (@read_success_nested_values sample_env sample_meta sample_d).
  vm_compute. reflexivity.
Defined.

Lemma describe_input_without_id_witness :
  StorageVirtualMachineIds (describeInput sample_d_no_filter) = nil_slice
  ∧ len (Filters (describeInput sample_d_no_filter)) =
      length (d_Get_filter sample_d_no_filter).
Proof.
  apply (describe_input_without_id sample_d_no_filter). reflexivity.
Defined.

Lemma describe_input_unrestricted_witness :
  describeInput sample_d_no_filter =
    {| Filters := None; MaxResults := None; NextToken := None;
       StorageVirtualMachineIds := None |}.
Proof.
  apply (describe_input_unrestricted sample_d_no_filter); reflexivity.
Defined.

Lemma flatten_injective_witness :
  Some {| Message := Some "ok" |} = Some {| Message := Some "ok" |}.
Proof.
  apply (flatten_injective (Some {| Message := Some "ok" |})
           (Some {| Message := Some "ok" |})).
  reflexivity.
Defined.

Lemma flatten_fits_schema_witness :
  ∃ m s,
    VMap {[ "message" := VString "ok" ]} = VMap m
    ∧ Schema_ sample_data_source !! "lifecycle_transition_reason" = Some s
    ∧ ∀ k x, m !! k = Some x ->
        ∃ sk, nested_names_of s !! k = Some sk
              ∧ value_fits (Type_ sk) x = true.
Proof.
  apply (@flatten_fits_schema sample_env sample_filters_schema
           sample_tags_schema (Some {| Message := Some "ok" |})
           [VMap {[ "message" := VString "ok" ]}]).
  - reflexivity.
  - apply list_elem_of_here.
Defined.

Lemma read_writes_declared_witness :
  ∃ s,
    Schema_ sample_data_source !! "arn" = Some s
    ∧ ("arn" ≠ names.AttrTags ->
       Computed s = true
       ∧ value_fits (Type_ s) (VStringPtr (ResourceARN sample_svm)) = true).
Proof.
  apply (@read_writes_declared sample_env sample_filters_schema
           sample_tags_schema sample_meta sample_d "arn"
           (VStringPtr (ResourceARN sample_svm)) None).
  apply list_elem_of_In. vm_compute. do 2 right. left. reflexivity.
Defined.

Lemma read_success_covers_schema_witness :
  is_Some (Schema_ sample_data_source !! "uuid")
  ↔ "uuid" = names.AttrFilter ∨ "uuid" = names.AttrID
    ∨ ∃ v r, CallSet "uuid" v r ∈ calls_since sample_d sample_read.2.
Proof.
  apply (@read_success_covers_schema sample_env sample_filters_schema
           sample_tags_schema sample_meta sample_d "uuid").
  vm_compute. reflexivity.
Defined.
